(** * A dual-headed residual network (models.py): shapes, heads and inference

    The Python module builds a residual encoder feeding a policy head and a
    value head out of [torch.nn] layers.  This development embeds

    - the layers of [torch.nn] the module uses (convolution, batch
      normalisation, linear map, soft-max, ...), with tensors over the real
      numbers: a tensor is a shape together with an indexing function;
    - every class of models.py as a record with its constructor ([__init__])
      and its [forward];
    - the inference entry point [DualRes.predict] as a state-passing function
      over the model and the global gradient switch, with Python exceptions as
      an explicit result.

    Arithmetic on tensor entries is exact (type [R]); rounding, overflow and
    NaN of 32-bit floats are outside the model.  The properties of the module
    stated below are about shapes, exceptions and the state of the model,
    which do not depend on the values of the entries (and one about a tensor
    added to itself, which is exact in floating point too); the lemmas on the
    values the heads return are marked as facts of exact arithmetic. *)

From Stdlib Require Import ZArith List Bool Lia.
From Stdlib Require Import Reals Lra.
Import ListNotations.

Open Scope Z_scope.

(** ** Python exceptions and results *)

Inductive exn : Type :=
| RuntimeError   (* shape, size or device mismatch raised by torch *)
| ValueError     (* torch's batch-size check of batch normalisation *)
| TypeError      (* calling [None] *)
| IndexError.    (* indexing an empty list *)

Inductive result (A : Type) : Type :=
| Ok (a : A)
| Raise (e : exn).
Arguments Ok {A} a.
Arguments Raise {A} e.

Definition bind {A B} (r : result A) (k : A -> result B) : result B :=
  match r with
  | Ok a => k a
  | Raise e => Raise e
  end.

Notation "'let*' x ':=' r 'in' k" := (bind r (fun x => k))
  (at level 10, x name, r at level 100, k at level 200).

Definition is_ok {A} (r : result A) : bool :=
  match r with Ok _ => true | Raise _ => false end.

(** ** Tensors *)

(** [range n] is Python's [range(n)]: empty when [n <= 0]. *)
Definition range (n : Z) : list Z := map Z.of_nat (seq 0 (Z.to_nat n)).

Definition Rsum (l : list R) : R := fold_right Rplus 0%R l.

(** [sum_over n f] is the sum of [f k] for [k] in [range(n)]. *)
Definition sum_over (n : Z) (f : Z -> R) : R := Rsum (map f (range n)).

Record Tensor : Type := mkTensor {
  shape : list Z;
  item  : list Z -> R
}.

Definition numel (s : list Z) : Z := fold_right Z.mul 1 s.

(** Row-major offset of a multi-index in a contiguous tensor of shape [s]. *)
Fixpoint ravel (s idx : list Z) : Z :=
  match s, idx with
  | d :: s', i :: idx' => i * numel s' + ravel s' idx'
  | _, _ => 0
  end.

(** The multi-index of the element at row-major offset [k]. *)
Fixpoint unravel (s : list Z) (k : Z) : list Z :=
  match s with
  | [] => []
  | d :: s' => (k / numel s') :: unravel s' (k mod numel s')
  end.

(** [x.view(s)] for a contiguous tensor and a fully given shape. *)
Definition view (x : Tensor) (s : list Z) : result Tensor :=
  if numel s =? numel (shape x)
  then Ok (mkTensor s (fun idx => item x (unravel (shape x) (ravel s idx))))
  else Raise RuntimeError.

(** [x.view(x.size(0), -1)]: the missing dimension is inferred. *)
Definition view_flat (x : Tensor) : result Tensor :=
  match shape x with
  | n :: rest =>
      if n =? 0 then Raise RuntimeError
      else view x [n; numel rest]
  | [] => Raise IndexError
  end.

(** [x[0]] on a tensor with a leading (batch) dimension. *)
Definition select0 (x : Tensor) : result Tensor :=
  match shape x with
  | n :: rest =>
      if 0 <? n then Ok (mkTensor rest (fun idx => item x (0 :: idx)))
      else Raise IndexError
  | [] => Raise IndexError
  end.

(** Pointwise application of a real function ([F.relu], [exp], [tanh]). *)
Definition pointwise (f : R -> R) (x : Tensor) : Tensor :=
  mkTensor (shape x) (fun idx => f (item x idx)).

Definition relu (x : Tensor) : Tensor := pointwise (Rmax 0) x.

(** In-place addition [x += r]: [r] is broadcast to the shape of [x]
    (trailing dimensions aligned, a dimension of [r] is that of [x] or 1);
    the two shapes are given reversed. *)
Fixpoint expandable (sr sx : list Z) : bool :=
  match sr, sx with
  | [], _ => true
  | _ :: _, [] => false
  | r :: sr', d :: sx' => ((r =? d) || (r =? 1)) && expandable sr' sx'
  end.

Fixpoint broadcast_index (sr idx : list Z) : list Z :=
  match sr, idx with
  | r :: sr', i :: idx' => (if r =? 1 then 0 else i) :: broadcast_index sr' idx'
  | _, _ => []
  end.

Definition iadd (x r : Tensor) : result Tensor :=
  if expandable (rev (shape r)) (rev (shape x))
  then Ok (mkTensor (shape x) (fun idx =>
         (item x idx +
          item r (rev (broadcast_index (rev (shape r)) (rev idx))))%R))
  else Raise RuntimeError.

(** [nn.LogSoftmax(dim=1)]: along the second dimension. *)
Definition log_softmax_dim1 (x : Tensor) : result Tensor :=
  match shape x with
  | _ :: k :: _ =>
      Ok (mkTensor (shape x) (fun idx =>
        match idx with
        | b :: a :: rest =>
            (item x idx - ln (sum_over k (fun j => exp (item x (b :: j :: rest)))))%R
        | _ => 0%R
        end))
  | _ => Raise IndexError
  end.

(** Freshly initialised parameters: torch draws them at random; here the
    constructors take the source of initial values as an argument. *)
Definition Init : Type := list Z -> Tensor.

Definition full (v : R) (s : list Z) : Tensor := mkTensor s (fun _ => v).

(** ** torch.nn.Conv2d *)

(** Output length of a convolution along one spatial dimension (the formula
    of the torch documentation; [/] on [Z] rounds down). *)
Definition conv_out (h k s p d : Z) : Z := (h + 2 * p - d * (k - 1) - 1) / s + 1.

(** The kernel must fit into the padded input. *)
Definition fits (h k p d : Z) : bool := d * (k - 1) + 1 <=? h + 2 * p.

(** Entry of the zero-padded input: of a batch, or of a single input without
    batch dimension (where [b] is not used). *)
Definition padded (x : Tensor) (b c i j : Z) : R :=
  match shape x with
  | [_; _; h; w] =>
      if (0 <=? i) && (i <? h) && (0 <=? j) && (j <? w)
      then item x [b; c; i; j] else 0%R
  | [_; h; w] =>
      if (0 <=? i) && (i <? h) && (0 <=? j) && (j <? w)
      then item x [c; i; j] else 0%R
  | _ => 0%R
  end.

Module Conv2d.

Record t : Type := mk {
  in_channels  : Z;
  out_channels : Z;
  kernel_size  : Z * Z;
  stride       : Z * Z;
  padding      : Z * Z;
  dilation     : Z * Z;
  weight       : Tensor;          (* shape [out; in; kh; kw] *)
  bias         : option Tensor    (* shape [out] *)
}.

(** [nn.Conv2d(in_channels, out_channels, kernel_size, stride, padding, bias)];
    dilation keeps its default 1.  The sizes are taken non-negative: torch's
    constructors refuse negative ones, and that refusal is not represented
    (here and in the constructors below). *)
Definition __init__ (fresh : Init) (in_channels out_channels : Z)
    (kernel_size stride padding : Z * Z) (bias : bool) : t :=
  mk in_channels out_channels kernel_size stride padding (1, 1)
     (fresh [out_channels; in_channels; fst kernel_size; snd kernel_size])
     (if bias then Some (fresh [out_channels]) else None).

Definition set_padding (self : t) (p : Z * Z) : t :=
  mk (in_channels self) (out_channels self) (kernel_size self) (stride self)
     p (dilation self) (weight self) (bias self).

(** Height and width of the result on maps of [ci] channels and size [h] by
    [w], or the error torch raises when the layer is called: on another
    channel count, a stride that is not positive, a kernel without elements
    (size 0, which the constructor accepts) or a kernel larger than the
    padded input. *)
Definition out_size (self : t) (ci h w : Z) : result (Z * Z) :=
  let '(kh, kw) := kernel_size self in
  let '(sh, sw) := stride self in
  let '(ph, pw) := padding self in
  let '(dh, dw) := dilation self in
  if negb (ci =? in_channels self) then Raise RuntimeError
  else if negb ((0 <? sh) && (0 <? sw)) then Raise RuntimeError
  else if (kh =? 0) || (kw =? 0) then Raise RuntimeError
  else if negb (fits h kh ph dh && fits w kw pw dw) then Raise RuntimeError
  else Ok (conv_out h kh sh ph dh, conv_out w kw sw pw dw).

(** Shape of the result on a batch (4 dimensions) or on a single input
    without batch dimension (3 dimensions); other ranks are refused. *)
Definition out_shape (self : t) (s : list Z) : result (list Z) :=
  match s with
  | [n; ci; h; w] =>
      let* hw := out_size self ci h w in
      Ok [n; out_channels self; fst hw; snd hw]
  | [ci; h; w] =>
      let* hw := out_size self ci h w in
      Ok [out_channels self; fst hw; snd hw]
  | _ => Raise RuntimeError
  end.

(** Entry [o; i; j] of the result for element [b] of the batch. *)
Definition out_entry (self : t) (x : Tensor) (b o i j : Z) : R :=
  let '(kh, kw) := kernel_size self in
  let '(sh, sw) := stride self in
  let '(ph, pw) := padding self in
  let '(dh, dw) := dilation self in
  ((match bias self with Some v => item v [o] | None => 0 end) +
   sum_over (in_channels self) (fun ci =>
     sum_over kh (fun di =>
       sum_over kw (fun dj =>
         item (weight self) [o; ci; di; dj] *
         padded x b ci (i * sh + di * dh - ph) (j * sw + dj * dw - pw)))))%R.

Definition out_item (self : t) (x : Tensor) (idx : list Z) : R :=
  match idx with
  | [b; o; i; j] => out_entry self x b o i j
  | [o; i; j] => out_entry self x 0 o i j
  | _ => 0%R
  end.

Definition forward (self : t) (x : Tensor) : result Tensor :=
  let* s := out_shape self (shape x) in
  Ok (mkTensor s (out_item self x)).

End Conv2d.

(** torch's [_pair]: an integer argument stands for both dimensions. *)
Definition pair_ (k : Z) : Z * Z := (k, k).

(** ** torch.nn.BatchNorm2d *)

Module BatchNorm2d.

Record t : Type := mk {
  num_features        : Z;
  eps                 : R;
  momentum            : R;
  weight              : Tensor;   (* shape [num_features] *)
  bias                : Tensor;
  running_mean        : Tensor;
  running_var         : Tensor;
  num_batches_tracked : Z;
  training            : bool
}.

(** A new module is in training mode; the affine terms start at 1 and 0, the
    running statistics at 0 and 1. *)
Definition __init__ (num_features : Z) : t :=
  mk num_features (1 / 100000)%R (1 / 10)%R
     (full 1 [num_features]) (full 0 [num_features])
     (full 0 [num_features]) (full 1 [num_features]) 0 true.

Definition set_training (self : t) (b : bool) : t :=
  mk (num_features self) (eps self) (momentum self) (weight self) (bias self)
     (running_mean self) (running_var self) (num_batches_tracked self) b.

(** [Module.train(mode)]; [Module.eval()] is [train(False)]. *)
Definition train (mode : bool) (self : t) : t := set_training self mode.

Definition eval (self : t) : t := train false self.

(** Mean and (biased) variance of channel [c] over batch and space. *)
Definition batch_mean (x : Tensor) (n h w c : Z) : R :=
  (sum_over n (fun b => sum_over h (fun i => sum_over w (fun j =>
     item x [b; c; i; j]))) / IZR (n * h * w))%R.

Definition batch_var (x : Tensor) (n h w c : Z) : R :=
  (sum_over n (fun b => sum_over h (fun i => sum_over w (fun j =>
     Rsqr (item x [b; c; i; j] - batch_mean x n h w c))))
   / IZR (n * h * w))%R.

Definition normalise (self : t) (mean var : Z -> R) (x : Tensor) : Tensor :=
  mkTensor (shape x) (fun idx =>
    match idx with
    | [b; c; i; j] =>
        ((item x idx - mean c) / sqrt (var c + eps self)
         * item (weight self) [c] + item (bias self) [c])%R
    | _ => 0%R
    end).

Definition channel (f : Z -> R) (n : Z) : Tensor :=
  mkTensor [n] (fun idx => match idx with [c] => f c | _ => 0%R end).

(** In training mode the batch statistics normalise the input and the running
    statistics are updated (with the unbiased variance); the batch counter is
    incremented before torch checks the input.  In evaluation mode the running
    statistics normalise the input and the module is left as it is. *)
Definition forward (self : t) (x : Tensor) : result Tensor * t :=
  match shape x with
  | [n; c; h; w] =>
      if training self then
        let self1 :=
          mk (num_features self) (eps self) (momentum self) (weight self)
             (bias self) (running_mean self) (running_var self)
             (num_batches_tracked self + 1) true in
        if n * h * w =? 1 then (Raise ValueError, self1)
        else if negb (c =? num_features self) then (Raise RuntimeError, self1)
        else
          let m := batch_mean x n h w in
          let v := batch_var x n h w in
          let cnt := IZR (n * h * w) in
          let rm := channel (fun k =>
            ((1 - momentum self) * item (running_mean self) [k]
             + momentum self * m k)%R) (num_features self) in
          let rv := channel (fun k =>
            ((1 - momentum self) * item (running_var self) [k]
             + momentum self * (v k * cnt / (cnt - 1)))%R) (num_features self) in
          (Ok (normalise self m v x),
           mk (num_features self) (eps self) (momentum self) (weight self)
              (bias self) rm rv (num_batches_tracked self + 1) true)
      else if negb (c =? num_features self) then (Raise RuntimeError, self)
      else
        (Ok (normalise self (fun k => item (running_mean self) [k])
                            (fun k => item (running_var self) [k]) x), self)
  | _ => (Raise ValueError, self)
  end.

End BatchNorm2d.

(** ** torch.nn.Linear (on a batch of rows) *)

Module Linear.

Record t : Type := mk {
  in_features  : Z;
  out_features : Z;
  weight       : Tensor;   (* shape [out_features; in_features] *)
  bias         : Tensor    (* shape [out_features] *)
}.

Definition __init__ (fresh : Init) (in_features out_features : Z) : t :=
  mk in_features out_features
     (fresh [out_features; in_features]) (fresh [out_features]).

Definition forward (self : t) (x : Tensor) : result Tensor :=
  match shape x with
  | [n; k] =>
      if k =? in_features self then
        Ok (mkTensor [n; out_features self] (fun idx =>
          match idx with
          | [b; o] =>
              (sum_over k (fun i => item x [b; i] * item (weight self) [o; i])
               + item (bias self) [o])%R
          | _ => 0%R
          end))
      else Raise RuntimeError
  | _ => Raise RuntimeError
  end.

End Linear.

(** * The classes of models.py *)

(** ** Conv2dAuto and conv3x3 *)

Module Conv2dAuto.

(** [Conv2dAuto(in_channels, out_channels, kernel_size, stride, padding, bias)]:
    the convolution is constructed as given, then its padding is overwritten
    with half the kernel size ([//] is the rounding-down division). *)
Definition __init__ (fresh : Init) (in_channels out_channels : Z)
    (kernel_size stride padding : Z * Z) (bias : bool) : Conv2d.t :=
  let self := Conv2d.__init__ fresh in_channels out_channels
                              kernel_size stride padding bias in
  Conv2d.set_padding self
    (fst (Conv2d.kernel_size self) / 2, snd (Conv2d.kernel_size self) / 2).

End Conv2dAuto.

(** [conv3x3 = partial(Conv2dAuto, kernel_size=3, bias=False)]; the stride is
    the only other argument the module ever passes (default 1). *)
Definition conv3x3 (fresh : Init) (in_channels out_channels : Z)
    (stride : Z * Z) : Conv2d.t :=
  Conv2dAuto.__init__ fresh in_channels out_channels (pair_ 3) stride
                      (pair_ 0) false.

(** ** The two-layer [nn.Sequential] of a convolution and a normalisation *)

Module ConvBn.

Record t : Type := mk {
  conv : Conv2d.t;
  bn   : BatchNorm2d.t
}.

Definition forward (self : t) (x : Tensor) : result Tensor * t :=
  match Conv2d.forward (conv self) x with
  | Raise e => (Raise e, self)
  | Ok y =>
      let '(r, bn') := BatchNorm2d.forward (bn self) y in
      (r, mk (conv self) bn')
  end.

Definition train (mode : bool) (self : t) : t :=
  mk (conv self) (BatchNorm2d.train mode (bn self)).

Definition eval (self : t) : t := train false self.

End ConvBn.

(** [conv_bn(in_channels, out_channels, conv, stride=...)]. *)
Definition conv_bn (fresh : Init) (in_channels out_channels : Z)
    (conv : Init -> Z -> Z -> Z * Z -> Conv2d.t) (stride : Z * Z) : ConvBn.t :=
  ConvBn.mk (conv fresh in_channels out_channels stride)
            (BatchNorm2d.__init__ out_channels).

(** ** ResidualBlock *)

(** What the attribute [shortcut] of a block can hold: the [nn.Identity()] the
    base class stores, Python's [None], or a projection. *)
Inductive Shortcut : Type :=
| ShortcutIdentity
| ShortcutNone
| ShortcutSeq (s : ConvBn.t).

(** What the attribute [blocks] can hold: the [nn.Identity()] of the base
    class, or the convolution, activation (ReLU), convolution of a basic block. *)
Inductive Blocks : Type :=
| BlocksIdentity
| BlocksSeq (c1 c2 : ConvBn.t).

Definition call_shortcut (s : Shortcut) (x : Tensor) : result Tensor * Shortcut :=
  match s with
  | ShortcutIdentity => (Ok x, s)
  | ShortcutNone => (Raise TypeError, s)
  | ShortcutSeq m => let '(r, m') := ConvBn.forward m x in (r, ShortcutSeq m')
  end.

Definition call_blocks (b : Blocks) (x : Tensor) : result Tensor * Blocks :=
  match b with
  | BlocksIdentity => (Ok x, b)
  | BlocksSeq c1 c2 =>
      let '(r1, c1') := ConvBn.forward c1 x in
      match r1 with
      | Raise e => (Raise e, BlocksSeq c1' c2)
      | Ok y =>
          let '(r2, c2') := ConvBn.forward c2 (relu y) in
          (r2, BlocksSeq c1' c2')
      end
  end.

(** [Module.train(mode)] reaches every sub-module; the normalisation layers
    are the ones whose behaviour depends on the mode. *)
Definition train_shortcut (mode : bool) (s : Shortcut) : Shortcut :=
  match s with
  | ShortcutSeq m => ShortcutSeq (ConvBn.train mode m)
  | _ => s
  end.

Definition train_blocks (mode : bool) (b : Blocks) : Blocks :=
  match b with
  | BlocksIdentity => b
  | BlocksSeq c1 c2 => BlocksSeq (ConvBn.train mode c1) (ConvBn.train mode c2)
  end.

Module ResidualBlock.

(** The property of the base class; subclasses override it. *)
Definition should_apply_shortcut (in_channels out_channels : Z) : bool :=
  negb (in_channels =? out_channels).

(** [forward], inherited by every block: the value of the (dynamically
    dispatched) property [should_apply_shortcut] of the instance is passed in
    together with its two sub-modules. *)
Definition forward (should_apply_shortcut : bool) (shortcut : Shortcut)
    (blocks : Blocks) (x : Tensor) : result Tensor * (Shortcut * Blocks) :=
  let residual := x in
  let '(r, shortcut') :=
    if should_apply_shortcut then call_shortcut shortcut x
    else (Ok residual, shortcut) in
  match r with
  | Raise e => (Raise e, (shortcut', blocks))
  | Ok residual =>
      let '(rx, blocks') := call_blocks blocks x in
      match rx with
      | Raise e => (Raise e, (shortcut', blocks'))
      | Ok x => (iadd x residual, (shortcut', blocks'))
      end
  end.

End ResidualBlock.

(** ** ResNetResidualBlock *)

Module ResNetResidualBlock.

Record t : Type := mk {
  in_channels  : Z;
  out_channels : Z;
  expansion    : Z;
  downsampling : Z;
  blocks       : Blocks;
  shortcut     : Shortcut
}.

Definition expanded_channels (self : t) : Z :=
  out_channels self * expansion self.

Definition should_apply_shortcut (self : t) : bool :=
  negb (in_channels self =? expanded_channels self).

Definition set_shortcut (self : t) (s : Shortcut) : t :=
  mk (in_channels self) (out_channels self) (expansion self)
     (downsampling self) (blocks self) s.

Definition set_blocks (self : t) (b : Blocks) : t :=
  mk (in_channels self) (out_channels self) (expansion self)
     (downsampling self) b (shortcut self).

(** [super().__init__] stores the channels and two identities; the shortcut is
    then replaced by the projection or by [None]. *)
Definition __init__ (fresh : Init) (in_channels out_channels : Z)
    (expansion downsampling : Z) : t :=
  let self := mk in_channels out_channels expansion downsampling
                 BlocksIdentity ShortcutIdentity in
  set_shortcut self
    (if should_apply_shortcut self then
       ShortcutSeq (ConvBn.mk
         (Conv2d.__init__ fresh (ResNetResidualBlock.in_channels self)
            (expanded_channels self) (pair_ 1)
            (pair_ (ResNetResidualBlock.downsampling self)) (pair_ 0) false)
         (BatchNorm2d.__init__ (expanded_channels self)))
     else ShortcutNone).

Definition forward (self : t) (x : Tensor) : result Tensor * t :=
  let '(r, (s, b)) :=
    ResidualBlock.forward (should_apply_shortcut self)
                          (shortcut self) (blocks self) x in
  (r, mk (in_channels self) (out_channels self) (expansion self)
         (downsampling self) b s).

Definition train (mode : bool) (self : t) : t :=
  mk (in_channels self) (out_channels self) (expansion self)
     (downsampling self) (train_blocks mode (blocks self))
     (train_shortcut mode (shortcut self)).

Definition eval (self : t) : t := train false self.

End ResNetResidualBlock.

(** ** ResNetBasicBlock *)

Module ResNetBasicBlock.

(** The class attribute [expansion = 1]. *)
Definition expansion : Z := 1.

(** [ResNetBasicBlock(in_channels, out_channels, expansion=..., downsampling=...)]
    with the default activation (ReLU) and the default [conv] ([conv3x3]). *)
Definition __init__ (fresh : Init) (in_channels out_channels : Z)
    (expansion downsampling : Z) : ResNetResidualBlock.t :=
  let self := ResNetResidualBlock.__init__ fresh in_channels out_channels
                                           expansion downsampling in
  ResNetResidualBlock.set_blocks self
    (BlocksSeq
       (conv_bn fresh (ResNetResidualBlock.in_channels self)
                (ResNetResidualBlock.out_channels self) conv3x3
                (pair_ (ResNetResidualBlock.downsampling self)))
       (conv_bn fresh (ResNetResidualBlock.out_channels self)
                (ResNetResidualBlock.expanded_channels self) conv3x3
                (pair_ 1))).

End ResNetBasicBlock.

(** [nn.Sequential] over a list of modules of one kind: the modules run in
    order, and an exception leaves the later ones untouched. *)
Fixpoint sequential {M : Type} (fwd : M -> Tensor -> result Tensor * M)
    (ms : list M) (x : Tensor) : result Tensor * list M :=
  match ms with
  | [] => (Ok x, [])
  | m :: rest =>
      let '(r, m') := fwd m x in
      match r with
      | Raise e => (Raise e, m' :: rest)
      | Ok y =>
          let '(r', rest') := sequential fwd rest y in
          (r', m' :: rest')
      end
  end.

(** ** ResNetLayer *)

Module ResNetLayer.

Record t : Type := mk {
  blocks : list ResNetResidualBlock.t
}.

(** [ResNetLayer(in_channels, out_channels, block=ResNetBasicBlock, n=n,
    expansion=...)]: the keyword [expansion] stands for the keywords the
    layer forwards to each block. *)
Definition __init__ (fresh : Init) (in_channels out_channels : Z) (n : Z)
    (expansion : Z) : t :=
  let downsampling := if negb (in_channels =? out_channels) then 2 else 1 in
  mk (ResNetBasicBlock.__init__ fresh in_channels out_channels
                                expansion downsampling
      :: map (fun _ => ResNetBasicBlock.__init__ fresh
                         (out_channels * ResNetBasicBlock.expansion)
                         out_channels expansion 1)
             (range (n - 1))).

Definition forward (self : t) (x : Tensor) : result Tensor * t :=
  let '(r, bs) := sequential ResNetResidualBlock.forward (blocks self) x in
  (r, mk bs).

Definition train (mode : bool) (self : t) : t :=
  mk (map (ResNetResidualBlock.train mode) (blocks self)).

Definition eval (self : t) : t := train false self.

End ResNetLayer.

(** ** ResNetEncoder *)

Module ResNetEncoder.

Record t : Type := mk {
  blocks_sizes       : list Z;
  gate               : ConvBn.t;      (* followed by the activation *)
  in_out_block_sizes : list (Z * Z);
  blocks             : list ResNetLayer.t
}.

(** [ResNetEncoder(in_channels, blocks_sizes, deepths, expansion=...)];
    [blocks_sizes[0]] and [deepths[0]] raise on an empty list. *)
Definition __init__ (fresh : Init) (in_channels : Z)
    (blocks_sizes deepths : list Z) (expansion : Z) : result t :=
  match blocks_sizes with
  | [] => Raise IndexError
  | b0 :: _ =>
      let gate :=
        ConvBn.mk (Conv2d.__init__ fresh in_channels b0
                                   (pair_ 3) (pair_ 1) (pair_ 1) false)
                  (BatchNorm2d.__init__ b0) in
      let in_out := combine blocks_sizes (tl blocks_sizes) in
      match deepths with
      | [] => Raise IndexError
      | d0 :: _ =>
          Ok (mk blocks_sizes gate in_out
                 [ResNetLayer.__init__ fresh b0 b0 d0 expansion])
      end
  end.

Definition forward (self : t) (x : Tensor) : result Tensor * t :=
  let '(r, g) := ConvBn.forward (gate self) x in
  match r with
  | Raise e => (Raise e, mk (blocks_sizes self) g (in_out_block_sizes self)
                            (blocks self))
  | Ok y =>
      let '(r', bs) := sequential ResNetLayer.forward (blocks self) (relu y) in
      (r', mk (blocks_sizes self) g (in_out_block_sizes self) bs)
  end.

Definition train (mode : bool) (self : t) : t :=
  mk (blocks_sizes self) (ConvBn.train mode (gate self))
     (in_out_block_sizes self) (map (ResNetLayer.train mode) (blocks self)).

Definition eval (self : t) : t := train false self.

End ResNetEncoder.

(** ** PolicyNet *)

Module PolicyNet.

Record t : Type := mk {
  outplanes : Z;
  inplanes  : Z;
  conv      : Conv2d.t;
  bn        : BatchNorm2d.t;
  fc        : Linear.t
}.

Definition __init__ (fresh : Init) (inplanes outplanes : Z) : t :=
  mk outplanes inplanes
     (Conv2d.__init__ fresh inplanes 1 (pair_ 1) (pair_ 1) (pair_ 0) true)
     (BatchNorm2d.__init__ 1)
     (Linear.__init__ fresh 121 outplanes).

Definition set_bn (self : t) (b : BatchNorm2d.t) : t :=
  mk (outplanes self) (inplanes self) (conv self) b (fc self).

Definition forward (self : t) (x : Tensor) : result Tensor * t :=
  match Conv2d.forward (conv self) x with
  | Raise e => (Raise e, self)
  | Ok y =>
      let '(r, b) := BatchNorm2d.forward (bn self) y in
      (let* z := r in
       let* z := view_flat (relu z) in
       let* z := Linear.forward (fc self) z in
       let* l := log_softmax_dim1 z in
       Ok (pointwise exp l),
       set_bn self b)
  end.

Definition train (mode : bool) (self : t) : t :=
  set_bn self (BatchNorm2d.train mode (bn self)).

Definition eval (self : t) : t := train false self.

End PolicyNet.

(** ** ValueNet *)

Module ValueNet.

Record t : Type := mk {
  outplanes : Z;
  conv      : Conv2d.t;
  bn        : BatchNorm2d.t;
  fc1       : Linear.t;
  fc2       : Linear.t
}.

Definition __init__ (fresh : Init) (inplanes outplanes : Z) : t :=
  mk outplanes
     (Conv2d.__init__ fresh inplanes 1 (pair_ 1) (pair_ 1) (pair_ 0) true)
     (BatchNorm2d.__init__ 1)
     (Linear.__init__ fresh 121 256)
     (Linear.__init__ fresh 256 1).

Definition set_bn (self : t) (b : BatchNorm2d.t) : t :=
  mk (outplanes self) (conv self) b (fc1 self) (fc2 self).

Definition forward (self : t) (x : Tensor) : result Tensor * t :=
  match Conv2d.forward (conv self) x with
  | Raise e => (Raise e, self)
  | Ok y =>
      let '(r, b) := BatchNorm2d.forward (bn self) y in
      (let* z := r in
       let* z := view_flat (relu z) in
       let* z := Linear.forward (fc1 self) z in
       let* z := Linear.forward (fc2 self) (relu z) in
       Ok (pointwise tanh z),
       set_bn self b)
  end.

Definition train (mode : bool) (self : t) : t :=
  set_bn self (BatchNorm2d.train mode (bn self)).

Definition eval (self : t) : t := train false self.

End ValueNet.

(** ** DualRes *)

(** The global gradient switch of torch. *)
Record World : Type := mkWorld {
  grad_enabled : bool
}.

Definition set_grad_enabled (b : bool) (w : World) : World := mkWorld b.

(** [with torch.no_grad(): body]: the switch is saved and turned off on
    entry, and set back to the saved value on exit, however the body ends. *)
Definition no_grad {A S : Type} (body : World -> S -> result A * (World * S))
    (w : World) (s : S) : result A * (World * S) :=
  let prev := grad_enabled w in
  let '(r, (w', s')) := body (set_grad_enabled false w) s in
  (r, (set_grad_enabled prev w', s')).

(** A device handle, as passed for [dev]. *)
Inductive Device : Type := XlaDevice (ordinal : Z).

(** Device placement does not change the entries of a tensor; what the
    runtime decides is whether a transfer raises. *)
Record Runtime : Type := mkRuntime {
  to_raises   : option Device -> option exn;   (* [tensor.to(dev)] *)
  cuda_raises : option exn                     (* [tensor.cuda()] *)
}.

Definition transfer (failure : option exn) (x : Tensor) : result Tensor :=
  match failure with
  | Some e => Raise e
  | None => Ok x
  end.

(** [blocks[-1]]. *)
Definition last_item {A : Type} (l : list A) : result A :=
  match rev l with
  | [] => Raise IndexError
  | a :: _ => Ok a
  end.

Module DualRes.

Record t : Type := mk {
  use_cuda : bool;
  use_tpu  : bool;
  dev      : option Device;
  encoder  : ResNetEncoder.t;
  policy   : PolicyNet.t;
  value    : ValueNet.t;
  training : bool
}.

(** [DualRes(in_channels, n_classes, cuda, tpu, dev, blocks_size, deepths,
    expansion=...)], without further positional arguments.  The encoder is
    called with the keyword [blocks_size], which is not the name of its
    parameter [blocks_sizes]: the list travels on among the keywords
    forwarded to the blocks, where nothing reads it, and the encoder keeps
    its default [[128]]. *)
Definition __init__ (fresh : Init) (in_channels n_classes : Z)
    (cuda tpu : bool) (dev : option Device) (blocks_size deepths : list Z)
    (expansion : Z) : result t :=
  let* encoder :=
    ResNetEncoder.__init__ fresh in_channels [128] deepths expansion in
  let* layer := last_item (ResNetEncoder.blocks encoder) in
  let* block := last_item (ResNetLayer.blocks layer) in
  let policy := PolicyNet.__init__ fresh
                  (ResNetResidualBlock.expanded_channels block) n_classes in
  let* layer := last_item (ResNetEncoder.blocks encoder) in
  let* block := last_item (ResNetLayer.blocks layer) in
  let value := ValueNet.__init__ fresh
                 (ResNetResidualBlock.expanded_channels block) n_classes in
  Ok (mk cuda tpu dev encoder policy value true).

Definition forward (self : t) (x : Tensor)
    : result (Tensor * Tensor) * t :=
  let '(r, e) := ResNetEncoder.forward (encoder self) x in
  match r with
  | Raise ex => (Raise ex, mk (use_cuda self) (use_tpu self) (dev self) e
                              (policy self) (value self) (training self))
  | Ok f =>
      let '(rp, p) := PolicyNet.forward (policy self) f in
      match rp with
      | Raise ex => (Raise ex, mk (use_cuda self) (use_tpu self) (dev self) e
                                  p (value self) (training self))
      | Ok pi =>
          let '(rv, v) := ValueNet.forward (value self) f in
          (let* v := rv in Ok (pi, v),
           mk (use_cuda self) (use_tpu self) (dev self) e p v (training self))
      end
  end.

(** [self.train(mode)]: the mode flag of the model and of all its
    sub-modules; [self.eval()] is [self.train(False)]. *)
Definition train (mode : bool) (self : t) : t :=
  mk (use_cuda self) (use_tpu self) (dev self)
     (ResNetEncoder.train mode (encoder self))
     (PolicyNet.train mode (policy self))
     (ValueNet.train mode (value self)) mode.

Definition eval (self : t) : t := train false self.

(** The conversion of the input array (taken contiguous) and the reshape
    that precede the forward pass.  With entries in [R] the conversions are
    the identity on entries: the cast to 32-bit floats of the host branch,
    and the element type the other branch keeps from the array, are not
    represented; what is represented is the order of the steps, the shape
    and which step raises. *)
Definition prepare (rt : Runtime) (self : t) (x : Tensor) : result Tensor :=
  let* x := (if use_tpu self then transfer (to_raises rt (dev self)) x
             else Ok x) in
  let* x := (if use_cuda self then transfer (cuda_raises rt) x else Ok x) in
  view x [1; 10; 11; 11].

(** [predict], over the forward pass it runs: [fwd] may end either way and may
    touch the gradient switch. *)
Definition predict_with
    (fwd : World -> t -> Tensor -> result (Tensor * Tensor) * (World * t))
    (rt : Runtime) (w : World) (self : t) (x : Tensor)
    : result (Tensor * Tensor) * (World * t) :=
  match prepare rt self x with
  | Raise e => (Raise e, (w, self))
  | Ok x =>
      let self := eval self in
      let '(r, st) := no_grad (fun w s => fwd w s x) w self in
      (let* out := r in
       let* pi := select0 (fst out) in
       let* v := select0 (snd out) in
       Ok (pi, v),
       st)
  end.

(** The forward pass does not touch the gradient switch. *)
Definition forward_in (w : World) (self : t) (x : Tensor)
    : result (Tensor * Tensor) * (World * t) :=
  let '(r, self') := forward self x in (r, (w, self')).

Definition predict : Runtime -> World -> t -> Tensor
    -> result (Tensor * Tensor) * (World * t) :=
  predict_with forward_in.

End DualRes.

(** * Auxiliary notions for the statements *)

(** Spatial size after a 3x3 convolution with padding 1, and after a 1x1
    convolution without padding, at stride [s]. *)
Definition strided (h s : Z) : Z := (h - 1) / s + 1.

(** ** Inference mode *)

(** A module is frozen when every normalisation layer below it is in
    evaluation mode. *)
Definition frozen_conv_bn (m : ConvBn.t) : Prop :=
  BatchNorm2d.training (ConvBn.bn m) = false.

Definition frozen_shortcut (s : Shortcut) : Prop :=
  match s with
  | ShortcutSeq m => frozen_conv_bn m
  | _ => True
  end.

Definition frozen_blocks (b : Blocks) : Prop :=
  match b with
  | BlocksIdentity => True
  | BlocksSeq c1 c2 => frozen_conv_bn c1 /\ frozen_conv_bn c2
  end.

Definition frozen_block (b : ResNetResidualBlock.t) : Prop :=
  frozen_blocks (ResNetResidualBlock.blocks b) /\
  frozen_shortcut (ResNetResidualBlock.shortcut b).

Definition frozen_layer (l : ResNetLayer.t) : Prop :=
  Forall frozen_block (ResNetLayer.blocks l).

Definition frozen_encoder (e : ResNetEncoder.t) : Prop :=
  frozen_conv_bn (ResNetEncoder.gate e) /\
  Forall frozen_layer (ResNetEncoder.blocks e).

Definition frozen (m : DualRes.t) : Prop :=
  frozen_encoder (DualRes.encoder m) /\
  BatchNorm2d.training (PolicyNet.bn (DualRes.policy m)) = false /\
  BatchNorm2d.training (ValueNet.bn (DualRes.value m)) = false /\
  DualRes.training m = false.

(** ** Indices *)

(** A multi-index lies within a shape. *)
Definition in_range (idx s : list Z) : Prop :=
  Forall2 (fun i d => 0 <= i < d) idx s.

(** ** A model to try the statements on *)

(** What [DualRes(10, 5)] builds when every initial parameter is 0. *)
Definition zero_model : DualRes.t :=
  DualRes.mk false false None
    (ResNetEncoder.mk [128]
       (ConvBn.mk (Conv2d.__init__ (full 0) 10 128 (pair_ 3) (pair_ 1)
                                   (pair_ 1) false)
                  (BatchNorm2d.__init__ 128))
       [] [ResNetLayer.__init__ (full 0) 128 128 20 1])
    (PolicyNet.__init__ (full 0) 128 5)
    (ValueNet.__init__ (full 0) 128 5) true.

Definition host : Runtime := mkRuntime (fun _ => None) None.

(** * Properties *)

(** ** Shapes of convolutions *)

Lemma conv_out_stride1 (h k p : Z) : conv_out h k 1 p 1 = h + 2 * p - k + 1.
Proof. unfold conv_out. rewrite Z.div_1_r. lia. Qed.

Lemma half_kernel (k : Z) : 2 * (k / 2) = k - k mod 2.
Proof. pose proof (Z.div_mod k 2). lia. Qed.

Lemma fits_auto (h k : Z) : 0 < h -> fits h k (k / 2) 1 = true.
Proof.
  intros Hh. unfold fits. apply Z.leb_le.
  pose proof (half_kernel k). pose proof (Z.mod_pos_bound k 2). lia.
Qed.

Lemma Conv2d_out_shape_ok
    (cin cout kh kw sh sw ph pw dh dw : Z) (wt : Tensor) (b : option Tensor)
    (n h w : Z) :
  0 < sh -> 0 < sw -> kh <> 0 -> kw <> 0 ->
  fits h kh ph dh = true -> fits w kw pw dw = true ->
  Conv2d.out_shape
    (Conv2d.mk cin cout (kh, kw) (sh, sw) (ph, pw) (dh, dw) wt b)
    [n; cin; h; w]
  = Ok [n; cout; conv_out h kh sh ph dh; conv_out w kw sw pw dw].
Proof.
  intros Hsh Hsw Hkh Hkw Hfh Hfw. unfold Conv2d.out_shape, Conv2d.out_size.
  cbn [Conv2d.in_channels Conv2d.out_channels Conv2d.kernel_size
       Conv2d.stride Conv2d.padding Conv2d.dilation].
  rewrite Z.eqb_refl, Hfh, Hfw.
  apply Z.ltb_lt in Hsh, Hsw. rewrite Hsh, Hsw.
  apply Z.eqb_neq in Hkh, Hkw. rewrite Hkh, Hkw. reflexivity.
Qed.

(** C4, the first half and the stride-1 size as the code has it: for valid
    (positive) kernel sizes the padding of a [Conv2dAuto] is half the kernel
    size, rounded down, in each dimension; with stride 1 the output is as
    large as the input in a dimension where the kernel size is odd, and larger
    by one where it is even. *)
Theorem Conv2dAuto_padding_and_size :
  forall (fresh : Init) (cin cout kh kw : Z) (p : Z * Z) (bias : bool)
         (n h w : Z),
    0 < kh -> 0 < kw -> 0 < h -> 0 < w ->
    let c := Conv2dAuto.__init__ fresh cin cout (kh, kw) (pair_ 1) p bias in
    Conv2d.padding c = (kh / 2, kw / 2) /\
    Conv2d.out_shape c [n; cin; h; w] =
      Ok [n; cout; h + (1 - kh mod 2); w + (1 - kw mod 2)].
Proof.
  intros fresh cin cout kh kw p bias n h w Hkh Hkw Hh Hw c.
  split; [reflexivity|].
  unfold c, Conv2dAuto.__init__, Conv2d.__init__, Conv2d.set_padding, pair_.
  cbn [Conv2d.in_channels Conv2d.out_channels Conv2d.kernel_size
       Conv2d.stride Conv2d.dilation Conv2d.weight Conv2d.bias fst snd].
  rewrite Conv2d_out_shape_ok by (try lia; now apply fits_auto).
  rewrite !conv_out_stride1.
  pose proof (half_kernel kh). pose proof (half_kernel kw).
  replace (h + 2 * (kh / 2) - kh + 1) with (h + (1 - kh mod 2)) by lia.
  replace (w + 2 * (kw / 2) - kw + 1) with (w + (1 - kw mod 2)) by lia.
  reflexivity.
Qed.

Lemma Conv2dAuto_padding_and_size_witness :
  let c := Conv2dAuto.__init__ (full 0) 10 128 (3, 3) (pair_ 1) (pair_ 0) false in
  Conv2d.padding c = (3 / 2, 3 / 2) /\
  Conv2d.out_shape c [1; 10; 11; 11] =
    Ok [1; 128; 11 + (1 - 3 mod 2); 11 + (1 - 3 mod 2)].
Proof.
  apply (Conv2dAuto_padding_and_size (full 0) 10 128 3 3 (pair_ 0) false 1 11 11);
    lia.
Defined.

(** C4 as stated fails for an even kernel size: a 2x2 kernel gets padding 1,
    and with stride 1 an 11x11 input comes out 12x12. *)
Lemma Conv2dAuto_even_kernel_grows :
  let c := Conv2dAuto.__init__ (full 0) 1 1 (pair_ 2) (pair_ 1) (pair_ 0) false in
  Conv2d.padding c = (1, 1) /\
  Conv2d.out_shape c [1; 1; 11; 11] = Ok [1; 1; 12; 12] /\
  Conv2d.out_shape c [1; 1; 11; 11] <> Ok [1; 1; 11; 11].
Proof.
  cbv zeta. split; [reflexivity|]. split; [reflexivity|].
  intros H. discriminate H.
Qed.

(** ** A frozen module is not changed by its forward pass *)

Lemma BatchNorm2d_forward_frozen (b : BatchNorm2d.t) (x : Tensor) :
  BatchNorm2d.training b = false -> snd (BatchNorm2d.forward b x) = b.
Proof.
  intros H. unfold BatchNorm2d.forward.
  destruct (shape x) as [|n [|c [|h [|w [|? ?]]]]]; try reflexivity.
  rewrite H. destruct (negb _); reflexivity.
Qed.

Lemma ConvBn_forward_frozen (m : ConvBn.t) (x : Tensor) :
  frozen_conv_bn m -> snd (ConvBn.forward m x) = m.
Proof.
  intros H. unfold ConvBn.forward.
  destruct (Conv2d.forward (ConvBn.conv m) x) as [y|e]; [|reflexivity].
  pose proof (BatchNorm2d_forward_frozen (ConvBn.bn m) y H) as Hb.
  destruct (BatchNorm2d.forward (ConvBn.bn m) y) as [r b']. cbn in *.
  subst b'. destruct m; reflexivity.
Qed.

Lemma call_shortcut_frozen (s : Shortcut) (x : Tensor) :
  frozen_shortcut s -> snd (call_shortcut s x) = s.
Proof.
  destruct s as [| |m]; cbn; intros H; try reflexivity.
  pose proof (ConvBn_forward_frozen m x H) as Hm.
  destruct (ConvBn.forward m x) as [r m']. cbn in *. now subst.
Qed.

Lemma call_blocks_frozen (b : Blocks) (x : Tensor) :
  frozen_blocks b -> snd (call_blocks b x) = b.
Proof.
  destruct b as [|c1 c2]; cbn; [reflexivity|]. intros [H1 H2].
  pose proof (ConvBn_forward_frozen c1 x H1) as E1.
  destruct (ConvBn.forward c1 x) as [r1 c1']. cbn in E1. subst c1'.
  destruct r1 as [y|e]; [|reflexivity].
  pose proof (ConvBn_forward_frozen c2 (relu y) H2) as E2.
  destruct (ConvBn.forward c2 (relu y)) as [r2 c2']. cbn in *. now subst.
Qed.

Lemma ResNetResidualBlock_forward_frozen (b : ResNetResidualBlock.t) (x : Tensor) :
  frozen_block b -> snd (ResNetResidualBlock.forward b x) = b.
Proof.
  intros [Hb Hs]. unfold ResNetResidualBlock.forward, ResidualBlock.forward.
  assert (Es : forall g : bool,
    snd (if g then call_shortcut (ResNetResidualBlock.shortcut b) x
         else (Ok x, ResNetResidualBlock.shortcut b))
    = ResNetResidualBlock.shortcut b).
  { intros [|]; [now apply call_shortcut_frozen | reflexivity]. }
  specialize (Es (ResNetResidualBlock.should_apply_shortcut b)).
  destruct (if ResNetResidualBlock.should_apply_shortcut b
            then call_shortcut (ResNetResidualBlock.shortcut b) x
            else (Ok x, ResNetResidualBlock.shortcut b)) as [r s'].
  cbn in Es. subst s'.
  destruct r as [res|e]; [|destruct b; reflexivity].
  pose proof (call_blocks_frozen (ResNetResidualBlock.blocks b) x Hb) as Eb.
  destruct (call_blocks (ResNetResidualBlock.blocks b) x) as [rx b'].
  cbn in Eb. subst b'.
  destruct rx; destruct b; reflexivity.
Qed.

Lemma sequential_frozen {M : Type} (fwd : M -> Tensor -> result Tensor * M)
    (P : M -> Prop) :
  (forall m x, P m -> snd (fwd m x) = m) ->
  forall ms x, Forall P ms -> snd (sequential fwd ms x) = ms.
Proof.
  intros Hf ms. induction ms as [|m rest IH]; intros x HP; [reflexivity|].
  inversion HP as [|? ? Hm Hrest]; subst. cbn.
  pose proof (Hf m x Hm) as Em.
  destruct (fwd m x) as [r m']. cbn in Em. subst m'.
  destruct r as [y|e]; [|reflexivity].
  specialize (IH y Hrest).
  destruct (sequential fwd rest y) as [r' rest']. cbn in *. now subst.
Qed.

Lemma ResNetLayer_forward_frozen (l : ResNetLayer.t) (x : Tensor) :
  frozen_layer l -> snd (ResNetLayer.forward l x) = l.
Proof.
  intros H. unfold ResNetLayer.forward.
  pose proof (sequential_frozen ResNetResidualBlock.forward frozen_block
                ResNetResidualBlock_forward_frozen (ResNetLayer.blocks l) x H) as E.
  destruct (sequential _ _ _) as [r bs]. cbn in *. subst. now destruct l.
Qed.

Lemma ResNetEncoder_forward_frozen (e : ResNetEncoder.t) (x : Tensor) :
  frozen_encoder e -> snd (ResNetEncoder.forward e x) = e.
Proof.
  intros [Hg Hb]. unfold ResNetEncoder.forward.
  pose proof (ConvBn_forward_frozen (ResNetEncoder.gate e) x Hg) as Eg.
  destruct (ConvBn.forward (ResNetEncoder.gate e) x) as [r g]. cbn in Eg. subst g.
  destruct r as [y|ex]; [|now destruct e].
  pose proof (sequential_frozen ResNetLayer.forward frozen_layer
                ResNetLayer_forward_frozen (ResNetEncoder.blocks e) (relu y) Hb) as E.
  destruct (sequential _ _ _) as [r' bs]. cbn in *. subst. now destruct e.
Qed.

Lemma PolicyNet_forward_frozen (p : PolicyNet.t) (x : Tensor) :
  BatchNorm2d.training (PolicyNet.bn p) = false ->
  snd (PolicyNet.forward p x) = p.
Proof.
  intros H. unfold PolicyNet.forward.
  destruct (Conv2d.forward (PolicyNet.conv p) x) as [y|e]; [|reflexivity].
  pose proof (BatchNorm2d_forward_frozen (PolicyNet.bn p) y H) as E.
  destruct (BatchNorm2d.forward (PolicyNet.bn p) y) as [r b]. cbn in *.
  subst b. now destruct p.
Qed.

Lemma ValueNet_forward_frozen (v : ValueNet.t) (x : Tensor) :
  BatchNorm2d.training (ValueNet.bn v) = false ->
  snd (ValueNet.forward v x) = v.
Proof.
  intros H. unfold ValueNet.forward.
  destruct (Conv2d.forward (ValueNet.conv v) x) as [y|e]; [|reflexivity].
  pose proof (BatchNorm2d_forward_frozen (ValueNet.bn v) y H) as E.
  destruct (BatchNorm2d.forward (ValueNet.bn v) y) as [r b]. cbn in *.
  subst b. now destruct v.
Qed.

Lemma DualRes_forward_frozen (m : DualRes.t) (x : Tensor) :
  frozen m -> snd (DualRes.forward m x) = m.
Proof.
  intros (He & Hp & Hv & _). unfold DualRes.forward.
  pose proof (ResNetEncoder_forward_frozen (DualRes.encoder m) x He) as Ee.
  destruct (ResNetEncoder.forward (DualRes.encoder m) x) as [r e]. cbn in Ee. subst e.
  destruct r as [f|ex]; [|now destruct m].
  pose proof (PolicyNet_forward_frozen (DualRes.policy m) f Hp) as Ep.
  destruct (PolicyNet.forward (DualRes.policy m) f) as [rp p]. cbn in Ep. subst p.
  destruct rp as [pi|ex]; [|now destruct m].
  pose proof (ValueNet_forward_frozen (DualRes.value m) f Hv) as Ev.
  destruct (ValueNet.forward (DualRes.value m) f) as [rv v]. cbn in *. subst v.
  now destruct m.
Qed.

(** [eval] freezes the whole model, and is idempotent. *)
Lemma eval_frozen (m : DualRes.t) : frozen (DualRes.eval m).
Proof.
  unfold frozen, DualRes.eval, DualRes.train; cbn. repeat split.
  - apply Forall_forall. intros l Hl.
    apply in_map_iff in Hl as (l0 & <- & _).
    unfold frozen_layer; cbn. apply Forall_forall. intros b Hb.
    apply in_map_iff in Hb as (b0 & <- & _).
    unfold frozen_block; cbn. split.
    + destruct (ResNetResidualBlock.blocks b0); cbn; [exact I|split; reflexivity].
    + destruct (ResNetResidualBlock.shortcut b0); cbn; try exact I. reflexivity.
Qed.

Lemma BatchNorm2d_train_twice (a b : bool) (m : BatchNorm2d.t) :
  BatchNorm2d.train a (BatchNorm2d.train b m) = BatchNorm2d.train a m.
Proof. reflexivity. Qed.

Lemma ResNetResidualBlock_train_twice (a b : bool) (m : ResNetResidualBlock.t) :
  ResNetResidualBlock.train a (ResNetResidualBlock.train b m)
  = ResNetResidualBlock.train a m.
Proof.
  unfold ResNetResidualBlock.train; cbn.
  destruct (ResNetResidualBlock.blocks m), (ResNetResidualBlock.shortcut m);
    reflexivity.
Qed.

Lemma ResNetLayer_train_twice (a b : bool) (l : ResNetLayer.t) :
  ResNetLayer.train a (ResNetLayer.train b l) = ResNetLayer.train a l.
Proof.
  unfold ResNetLayer.train; cbn. rewrite map_map. f_equal.
  apply map_ext. intros m. apply ResNetResidualBlock_train_twice.
Qed.

Lemma ResNetEncoder_train_twice (a b : bool) (e : ResNetEncoder.t) :
  ResNetEncoder.train a (ResNetEncoder.train b e) = ResNetEncoder.train a e.
Proof.
  unfold ResNetEncoder.train; cbn. rewrite map_map. f_equal.
  apply map_ext. intros l. apply ResNetLayer_train_twice.
Qed.

Lemma eval_twice (m : DualRes.t) :
  DualRes.eval (DualRes.eval m) = DualRes.eval m.
Proof.
  unfold DualRes.eval, DualRes.train; cbn.
  rewrite ResNetEncoder_train_twice. reflexivity.
Qed.

(** ** What [predict] does to the model and to the gradient switch *)

(** The outputs [predict] hands back: the first row of each head's result. *)
Lemma predict_unfold (rt : Runtime) (w : World) (m : DualRes.t) (x : Tensor) :
  DualRes.predict rt w m x =
  match DualRes.prepare rt m x with
  | Raise e => (Raise e, (w, m))
  | Ok x' =>
      (let* out := fst (DualRes.forward (DualRes.eval m) x') in
       let* pi := select0 (fst out) in
       let* v := select0 (snd out) in
       Ok (pi, v),
       (w, DualRes.eval m))
  end.
Proof.
  unfold DualRes.predict, DualRes.predict_with, no_grad, DualRes.forward_in.
  destruct (DualRes.prepare rt m x) as [x'|e]; [|reflexivity].
  pose proof (DualRes_forward_frozen (DualRes.eval m) x' (eval_frozen m)) as E.
  destruct (DualRes.forward (DualRes.eval m) x') as [r m']. cbn in *.
  subst m'. destruct w; reflexivity.
Qed.

Lemma prepare_eval (rt : Runtime) (m : DualRes.t) (x : Tensor) :
  DualRes.prepare rt (DualRes.eval m) x = DualRes.prepare rt m x.
Proof. reflexivity. Qed.

(** ** Shapes through the layers *)

Lemma Conv2d_forward_shape (c : Conv2d.t) (x : Tensor) (s : list Z) :
  Conv2d.out_shape c (shape x) = Ok s ->
  exists y, Conv2d.forward c x = Ok y /\ shape y = s.
Proof.
  intros H. unfold Conv2d.forward. rewrite H. cbn. eexists. split; reflexivity.
Qed.

Lemma BatchNorm2d_forward_shape (b : BatchNorm2d.t) (x : Tensor) (n c h w : Z) :
  shape x = [n; c; h; w] ->
  BatchNorm2d.num_features b = c ->
  (BatchNorm2d.training b = true -> n * h * w <> 1) ->
  exists y, fst (BatchNorm2d.forward b x) = Ok y /\ shape y = [n; c; h; w].
Proof.
  intros Hx Hc Hn. unfold BatchNorm2d.forward. rewrite Hx, Hc, Z.eqb_refl.
  destruct (BatchNorm2d.training b).
  - specialize (Hn eq_refl). apply Z.eqb_neq in Hn. rewrite Hn. cbn.
    eexists. split; [reflexivity|]. exact Hx.
  - cbn. eexists. split; [reflexivity|]. exact Hx.
Qed.

Lemma ConvBn_forward_shape (m : ConvBn.t) (x : Tensor) (n c h w : Z) :
  Conv2d.out_shape (ConvBn.conv m) (shape x) = Ok [n; c; h; w] ->
  BatchNorm2d.num_features (ConvBn.bn m) = c ->
  (BatchNorm2d.training (ConvBn.bn m) = true -> n * h * w <> 1) ->
  exists y, fst (ConvBn.forward m x) = Ok y /\ shape y = [n; c; h; w].
Proof.
  intros Hs Hc Hn. unfold ConvBn.forward.
  destruct (Conv2d_forward_shape _ _ _ Hs) as (y & -> & Hy).
  destruct (BatchNorm2d_forward_shape (ConvBn.bn m) y n c h w Hy Hc Hn)
    as (z & Hz & Hzs).
  destruct (BatchNorm2d.forward (ConvBn.bn m) y) as [r b']. cbn in *.
  exists z. now split.
Qed.

Lemma conv_out_3x3 (h s : Z) : conv_out h 3 s (3 / 2) 1 = strided h s.
Proof. unfold conv_out, strided. f_equal. f_equal. change (3 / 2) with 1. lia. Qed.

Lemma conv_out_1x1 (h s : Z) : conv_out h 1 s 0 1 = strided h s.
Proof. unfold conv_out, strided. f_equal. f_equal. lia. Qed.

Lemma strided_1 (h : Z) : strided h 1 = h.
Proof. unfold strided. rewrite Z.div_1_r. lia. Qed.

Lemma strided_pos (h s : Z) : 0 < h -> 0 < s -> 0 < strided h s.
Proof.
  intros Hh Hs. unfold strided.
  assert (0 <= (h - 1) / s) by (apply Z.div_pos; lia). lia.
Qed.

(** With stride 2 the size is halved, rounding up. *)
Lemma strided_2 (h : Z) : strided h 2 = (h + 1) / 2.
Proof.
  unfold strided. replace (h + 1) with (h - 1 + 1 * 2) by lia.
  rewrite Z.div_add by lia. reflexivity.
Qed.

Lemma half_up_is_ceiling (h : Z) : h <= 2 * ((h + 1) / 2) <= h + 1.
Proof. pose proof (Z.div_mod (h + 1) 2). pose proof (Z.mod_pos_bound (h + 1) 2). lia. Qed.

Lemma conv3x3_bn_forward_shape
    (fresh : Init) (cin cout s : Z) (mode : bool) (x : Tensor) (n h w : Z) :
  shape x = [n; cin; h; w] -> 0 < h -> 0 < w -> 0 < s ->
  (mode = true -> n * strided h s * strided w s <> 1) ->
  exists y,
    fst (ConvBn.forward
           (ConvBn.train mode (conv_bn fresh cin cout conv3x3 (pair_ s))) x) = Ok y
    /\ shape y = [n; cout; strided h s; strided w s].
Proof.
  intros Hx Hh Hw Hs Hn. apply ConvBn_forward_shape.
  - rewrite Hx. cbn [ConvBn.train ConvBn.conv conv_bn].
    unfold conv3x3, Conv2dAuto.__init__, Conv2d.__init__, Conv2d.set_padding, pair_.
    cbn [Conv2d.in_channels Conv2d.out_channels Conv2d.kernel_size
         Conv2d.stride Conv2d.dilation Conv2d.weight Conv2d.bias fst snd].
    rewrite Conv2d_out_shape_ok by (try lia; now apply fits_auto).
    now rewrite !conv_out_3x3.
  - reflexivity.
  - cbn. exact Hn.
Qed.

Lemma projection_forward_shape
    (fresh : Init) (cin cout s : Z) (mode : bool) (x : Tensor) (n h w : Z) :
  shape x = [n; cin; h; w] -> 0 < h -> 0 < w -> 0 < s ->
  (mode = true -> n * strided h s * strided w s <> 1) ->
  exists y,
    fst (ConvBn.forward
           (ConvBn.train mode
              (ConvBn.mk (Conv2d.__init__ fresh cin cout (pair_ 1) (pair_ s)
                                          (pair_ 0) false)
                         (BatchNorm2d.__init__ cout))) x) = Ok y
    /\ shape y = [n; cout; strided h s; strided w s].
Proof.
  intros Hx Hh Hw Hs Hn. apply ConvBn_forward_shape.
  - rewrite Hx. cbn [ConvBn.train ConvBn.conv].
    unfold Conv2d.__init__, pair_. cbn [fst snd].
    rewrite Conv2d_out_shape_ok by (try lia; unfold fits; apply Z.leb_le; lia).
    now rewrite !conv_out_1x1.
  - reflexivity.
  - cbn. exact Hn.
Qed.

Lemma expandable_refl (s : list Z) : expandable s s = true.
Proof. induction s as [|d s IH]; cbn; [reflexivity|]. now rewrite Z.eqb_refl, IH. Qed.

Lemma iadd_same_shape (x r : Tensor) :
  shape r = shape x -> exists y, iadd x r = Ok y /\ shape y = shape x.
Proof.
  intros H. unfold iadd. rewrite H, expandable_refl.
  eexists. split; reflexivity.
Qed.

(** ** Residual blocks *)

Lemma basic_block_blocks (fresh : Init) (cin cout e d : Z) (mode : bool) :
  ResNetResidualBlock.blocks
    (ResNetResidualBlock.train mode (ResNetBasicBlock.__init__ fresh cin cout e d))
  = BlocksSeq (ConvBn.train mode (conv_bn fresh cin cout conv3x3 (pair_ d)))
              (ConvBn.train mode (conv_bn fresh cout (cout * e) conv3x3 (pair_ 1))).
Proof. reflexivity. Qed.

Lemma residual_block_shortcut (fresh : Init) (cin cout e d : Z) :
  ResNetResidualBlock.shortcut (ResNetResidualBlock.__init__ fresh cin cout e d)
  = if negb (cin =? cout * e)
    then ShortcutSeq
           (ConvBn.mk (Conv2d.__init__ fresh cin (cout * e) (pair_ 1) (pair_ d)
                                       (pair_ 0) false)
                      (BatchNorm2d.__init__ (cout * e)))
    else ShortcutNone.
Proof. reflexivity. Qed.

Lemma basic_block_shortcut (fresh : Init) (cin cout e d : Z) :
  ResNetResidualBlock.shortcut (ResNetBasicBlock.__init__ fresh cin cout e d)
  = ResNetResidualBlock.shortcut (ResNetResidualBlock.__init__ fresh cin cout e d).
Proof. reflexivity. Qed.

Lemma basic_block_should_apply (fresh : Init) (cin cout e d : Z) (mode : bool) :
  ResNetResidualBlock.should_apply_shortcut
    (ResNetResidualBlock.train mode (ResNetBasicBlock.__init__ fresh cin cout e d))
  = negb (cin =? cout * e).
Proof. reflexivity. Qed.

Lemma relu_shape (x : Tensor) : shape (relu x) = shape x.
Proof. reflexivity. Qed.

Lemma basic_blocks_forward_shape
    (fresh : Init) (cin cout ce d : Z) (mode : bool) (x : Tensor) (n h w : Z) :
  shape x = [n; cin; h; w] -> 0 < h -> 0 < w -> 0 < d ->
  (mode = true -> n * strided h d * strided w d <> 1) ->
  exists y,
    fst (call_blocks
           (BlocksSeq (ConvBn.train mode (conv_bn fresh cin cout conv3x3 (pair_ d)))
                      (ConvBn.train mode (conv_bn fresh cout ce conv3x3 (pair_ 1))))
           x) = Ok y
    /\ shape y = [n; ce; strided h d; strided w d].
Proof.
  intros Hx Hh Hw Hd Hn. cbn [call_blocks].
  destruct (conv3x3_bn_forward_shape fresh cin cout d mode x n h w Hx Hh Hw Hd Hn)
    as (y1 & E1 & S1).
  destruct (ConvBn.forward _ x) as [r1 c1']. cbn in E1. subst r1.
  pose proof (strided_pos h d Hh Hd) as Ph.
  pose proof (strided_pos w d Hw Hd) as Pw.
  destruct (conv3x3_bn_forward_shape fresh cout ce 1 mode (relu y1) n
              (strided h d) (strided w d)) as (y2 & E2 & S2);
    try assumption; try lia.
  { rewrite !strided_1. exact Hn. }
  destruct (ConvBn.forward _ (relu y1)) as [r2 c2']. cbn in E2. subst r2.
  exists y2. split; [reflexivity|]. now rewrite !strided_1 in S2.
Qed.

(** A basic block whose shortcut is a projection, or whose stride is 1, maps
    [n; cin; h; w] to [n; cout * e; strided h d; strided w d]. *)
Lemma basic_block_forward_shape
    (fresh : Init) (cin cout e d : Z) (mode : bool) (x : Tensor) (n h w : Z) :
  shape x = [n; cin; h; w] -> 0 < h -> 0 < w -> 0 < d ->
  (cin = cout * e -> d = 1) ->
  (mode = true -> n * strided h d * strided w d <> 1) ->
  exists y,
    fst (ResNetResidualBlock.forward
           (ResNetResidualBlock.train mode
              (ResNetBasicBlock.__init__ fresh cin cout e d)) x) = Ok y
    /\ shape y = [n; cout * e; strided h d; strided w d].
Proof.
  intros Hx Hh Hw Hd Hid Hn.
  unfold ResNetResidualBlock.forward, ResidualBlock.forward.
  rewrite basic_block_should_apply, basic_block_blocks.
  destruct (basic_blocks_forward_shape fresh cin cout (cout * e) d mode x n h w
              Hx Hh Hw Hd Hn) as (y & Ey & Sy).
  destruct (Z.eqb_spec cin (cout * e)) as [Heq|Hne]; cbn [negb].
  - (* identity path *)
    specialize (Hid Heq). subst d.
    destruct (call_blocks _ x) as [rx b']. cbn in Ey. subst rx.
    rewrite !strided_1 in Sy.
    destruct (iadd_same_shape y x) as (z & Ez & Sz); [congruence|].
    rewrite Ez. exists z. split; [reflexivity|].
    rewrite !strided_1. congruence.
  - (* projection path *)
    cbn [ResNetResidualBlock.train ResNetResidualBlock.shortcut].
    rewrite basic_block_shortcut, residual_block_shortcut.
    apply Z.eqb_neq in Hne. rewrite Hne. cbn [negb train_shortcut call_shortcut].
    destruct (projection_forward_shape fresh cin (cout * e) d mode x n h w
                Hx Hh Hw Hd Hn) as (r & Er & Sr).
    destruct (ConvBn.forward _ x) as [rr m']. cbn in Er. subst rr.
    destruct (call_blocks _ x) as [rx b']. cbn in Ey. subst rx.
    destruct (iadd_same_shape y r) as (z & Ez & Sz); [congruence|].
    rewrite Ez. exists z. split; [reflexivity|]. congruence.
Qed.

(** The two paths of the inherited [forward]. *)
Lemma forward_identity_path (b : ResNetResidualBlock.t) (x : Tensor) :
  ResNetResidualBlock.should_apply_shortcut b = false ->
  fst (ResNetResidualBlock.forward b x)
  = (let* y := fst (call_blocks (ResNetResidualBlock.blocks b) x) in iadd y x).
Proof.
  intros H. unfold ResNetResidualBlock.forward, ResidualBlock.forward.
  rewrite H. destruct (call_blocks _ x) as [[y|e] b']; reflexivity.
Qed.

Lemma forward_projection_path (b : ResNetResidualBlock.t) (x : Tensor) :
  ResNetResidualBlock.should_apply_shortcut b = true ->
  fst (ResNetResidualBlock.forward b x)
  = (let* r := fst (call_shortcut (ResNetResidualBlock.shortcut b) x) in
     let* y := fst (call_blocks (ResNetResidualBlock.blocks b) x) in
     iadd y r).
Proof.
  intros H. unfold ResNetResidualBlock.forward, ResidualBlock.forward.
  rewrite H. destruct (call_shortcut _ x) as [[r|e] s']; [|reflexivity].
  destruct (call_blocks _ x) as [[y|e] b']; reflexivity.
Qed.



(** ** No call of [None] *)

Lemma Conv2d_forward_no_TypeError (c : Conv2d.t) (x : Tensor) :
  Conv2d.forward c x <> Raise TypeError.
Proof.
  assert (Hs : forall ci h w, Conv2d.out_size c ci h w <> Raise TypeError).
  { intros ci h w. unfold Conv2d.out_size.
    destruct (Conv2d.kernel_size c), (Conv2d.stride c), (Conv2d.padding c),
      (Conv2d.dilation c).
    repeat (match goal with |- context [if ?g then _ else _] => destruct g end;
            cbn; try discriminate). }
  unfold Conv2d.forward, Conv2d.out_shape.
  destruct (shape x) as [|n [|ci [|h [|w [|? ?]]]]]; cbn; try discriminate.
  - specialize (Hs n ci h). destruct (Conv2d.out_size c n ci h); cbn;
      [discriminate|]. intros E. apply Hs. now injection E as ->.
  - specialize (Hs ci h w). destruct (Conv2d.out_size c ci h w); cbn;
      [discriminate|]. intros E. apply Hs. now injection E as ->.
Qed.

Lemma BatchNorm2d_forward_no_TypeError (b : BatchNorm2d.t) (x : Tensor) :
  fst (BatchNorm2d.forward b x) <> Raise TypeError.
Proof.
  unfold BatchNorm2d.forward.
  destruct (shape x) as [|n [|c [|h [|w [|? ?]]]]]; cbn; try discriminate.
  repeat (match goal with |- context [if ?g then _ else _] => destruct g end;
          cbn; try discriminate).
Qed.

Lemma ConvBn_forward_no_TypeError (m : ConvBn.t) (x : Tensor) :
  fst (ConvBn.forward m x) <> Raise TypeError.
Proof.
  unfold ConvBn.forward.
  pose proof (Conv2d_forward_no_TypeError (ConvBn.conv m) x) as Hc.
  destruct (Conv2d.forward (ConvBn.conv m) x) as [y|e]; [|exact Hc].
  pose proof (BatchNorm2d_forward_no_TypeError (ConvBn.bn m) y) as Hb.
  destruct (BatchNorm2d.forward (ConvBn.bn m) y) as [r b']. exact Hb.
Qed.

Lemma call_blocks_no_TypeError (b : Blocks) (x : Tensor) :
  fst (call_blocks b x) <> Raise TypeError.
Proof.
  destruct b as [|c1 c2]; cbn; [discriminate|].
  pose proof (ConvBn_forward_no_TypeError c1 x) as H1.
  destruct (ConvBn.forward c1 x) as [[y|e] c1']; [|exact H1].
  pose proof (ConvBn_forward_no_TypeError c2 (relu y)) as H2.
  destruct (ConvBn.forward c2 (relu y)) as [r2 c2']. exact H2.
Qed.

Lemma iadd_no_TypeError (x r : Tensor) : iadd x r <> Raise TypeError.
Proof. unfold iadd. destruct (expandable _ _); discriminate. Qed.

Lemma call_shortcut_no_TypeError (s : Shortcut) (x : Tensor) :
  s <> ShortcutNone -> fst (call_shortcut s x) <> Raise TypeError.
Proof.
  destruct s as [| |m]; cbn; intros Hs; [discriminate|now elim Hs|].
  pose proof (ConvBn_forward_no_TypeError m x) as Hm.
  destruct (ConvBn.forward m x) as [r m']. exact Hm.
Qed.

Lemma forward_no_TypeError (b : ResNetResidualBlock.t) (x : Tensor) :
  (ResNetResidualBlock.should_apply_shortcut b = true ->
   ResNetResidualBlock.shortcut b <> ShortcutNone) ->
  fst (ResNetResidualBlock.forward b x) <> Raise TypeError.
Proof.
  intros Hs.
  pose proof (call_blocks_no_TypeError (ResNetResidualBlock.blocks b) x) as Hb.
  destruct (ResNetResidualBlock.should_apply_shortcut b) eqn:G.
  - rewrite forward_projection_path by exact G.
    pose proof (call_shortcut_no_TypeError _ x (Hs eq_refl)) as Hc.
    destruct (fst (call_shortcut _ x)) as [r|e]; cbn; [|exact Hc].
    destruct (fst (call_blocks _ x)) as [y|e]; cbn; [apply iadd_no_TypeError|exact Hb].
  - rewrite forward_identity_path by exact G.
    destruct (fst (call_blocks _ x)) as [y|e]; cbn; [apply iadd_no_TypeError|exact Hb].
Qed.

(** C10: a block with [in_channels = out_channels * expansion] stores [None]
    as its shortcut; the guard of [forward] is false exactly when the stored
    shortcut is [None], so [forward] never calls [None], in either mode and
    for the basic block as well. *)
Theorem forward_never_calls_None :
  forall (fresh : Init) (cin cout e d : Z),
    let b := ResNetResidualBlock.__init__ fresh cin cout e d in
    let bb := ResNetBasicBlock.__init__ fresh cin cout e d in
    (cin = cout * e <-> ResNetResidualBlock.shortcut b = ShortcutNone) /\
    ResNetResidualBlock.shortcut bb = ResNetResidualBlock.shortcut b /\
    (ResNetResidualBlock.should_apply_shortcut b = false
     <-> ResNetResidualBlock.shortcut b = ShortcutNone) /\
    (ResNetResidualBlock.should_apply_shortcut bb = false
     <-> ResNetResidualBlock.shortcut bb = ShortcutNone) /\
    (forall (mode : bool) (x : Tensor),
       fst (ResNetResidualBlock.forward (ResNetResidualBlock.train mode b) x)
         <> Raise TypeError /\
       fst (ResNetResidualBlock.forward (ResNetResidualBlock.train mode bb) x)
         <> Raise TypeError).
Proof.
  intros fresh cin cout e d b bb.
  assert (Hs : ResNetResidualBlock.shortcut b
               = if negb (cin =? cout * e)
                 then ShortcutSeq
                        (ConvBn.mk (Conv2d.__init__ fresh cin (cout * e) (pair_ 1)
                                      (pair_ d) (pair_ 0) false)
                                   (BatchNorm2d.__init__ (cout * e)))
                 else ShortcutNone) by reflexivity.
  assert (Hg : ResNetResidualBlock.should_apply_shortcut b = negb (cin =? cout * e))
    by reflexivity.
  assert (Hbb : ResNetResidualBlock.shortcut bb = ResNetResidualBlock.shortcut b)
    by reflexivity.
  assert (Hgb : ResNetResidualBlock.should_apply_shortcut bb
                = ResNetResidualBlock.should_apply_shortcut b) by reflexivity.
  assert (Hnone : ResNetResidualBlock.should_apply_shortcut b = false
                  <-> ResNetResidualBlock.shortcut b = ShortcutNone).
  { rewrite Hs, Hg. destruct (cin =? cout * e); cbn; split;
      intros H; try reflexivity; discriminate H. }
  split; [|split; [exact Hbb|split; [exact Hnone|split]]].
  - rewrite <- Hnone, Hg, negb_false_iff. symmetry. apply Z.eqb_eq.
  - rewrite Hgb, Hbb. exact Hnone.
  - intros mode x. split; apply forward_no_TypeError.
    + change (ResNetResidualBlock.should_apply_shortcut
                (ResNetResidualBlock.train mode b))
        with (ResNetResidualBlock.should_apply_shortcut b).
      cbn [ResNetResidualBlock.train ResNetResidualBlock.shortcut].
      intros G. rewrite Hs. rewrite Hg in G. rewrite G. cbn. discriminate.
    + change (ResNetResidualBlock.should_apply_shortcut
                (ResNetResidualBlock.train mode bb))
        with (ResNetResidualBlock.should_apply_shortcut b).
      cbn [ResNetResidualBlock.train ResNetResidualBlock.shortcut].
      intros G. rewrite Hbb, Hs. rewrite Hg in G. rewrite G. cbn. discriminate.
Qed.

(** ** Residual stages *)

Lemma map_const_range {A : Type} (a : A) (k : Z) :
  map (fun _ : Z => a) (range k) = repeat a (Z.to_nat k).
Proof.
  unfold range. rewrite map_map.
  generalize 0%nat. induction (Z.to_nat k) as [|m IH]; intros s; cbn;
    [reflexivity|]. now rewrite IH.
Qed.

Lemma ResNetLayer_blocks (fresh : Init) (cin cout n e : Z) :
  ResNetLayer.blocks (ResNetLayer.__init__ fresh cin cout n e)
  = ResNetBasicBlock.__init__ fresh cin cout e
      (if negb (cin =? cout) then 2 else 1)
    :: repeat (ResNetBasicBlock.__init__ fresh
                 (cout * ResNetBasicBlock.expansion) cout e 1)
              (Z.to_nat (n - 1)).
Proof.
  unfold ResNetLayer.__init__. cbn [ResNetLayer.blocks].
  now rewrite map_const_range.
Qed.

Lemma sequential_repeat_shape {M : Type}
    (fwd : M -> Tensor -> result Tensor * M) (m : M) (s : list Z) :
  (forall x, shape x = s -> exists y, fst (fwd m x) = Ok y /\ shape y = s) ->
  forall (k : nat) (x : Tensor),
    shape x = s ->
    exists y, fst (sequential fwd (repeat m k) x) = Ok y /\ shape y = s.
Proof.
  intros Hm k. induction k as [|k IH]; intros x Hx; cbn.
  - exists x. now split.
  - destruct (Hm x Hx) as (y & Ey & Sy).
    destruct (fwd m x) as [r m']. cbn in Ey. subst r.
    destruct (IH y Sy) as (z & Ez & Sz).
    destruct (sequential fwd (repeat m k) y) as [r' rest']. cbn in Ez. subst r'.
    exists z. now split.
Qed.

(** Output height (or width) of a stage: halved, rounding up, when the
    channel count changes. *)
Lemma stage_forward_shape
    (fresh : Init) (cin cout n : Z) (mode : bool) (x : Tensor) (b h w : Z) :
  let h' := if negb (cin =? cout) then (h + 1) / 2 else h in
  let w' := if negb (cin =? cout) then (w + 1) / 2 else w in
  shape x = [b; cin; h; w] -> 0 < h -> 0 < w ->
  (mode = true -> b * h' * w' <> 1) ->
  exists y,
    fst (ResNetLayer.forward
           (ResNetLayer.train mode (ResNetLayer.__init__ fresh cin cout n 1)) x)
      = Ok y
    /\ shape y = [b; cout; h'; w'].
Proof.
  intros h' w' Hx Hh Hw Hn.
  unfold ResNetLayer.forward, ResNetLayer.train.
  cbn [ResNetLayer.blocks]. rewrite ResNetLayer_blocks.
  cbn [map sequential]. rewrite map_repeat.
  set (d := if negb (cin =? cout) then 2 else 1).
  assert (Hd : 0 < d) by (unfold d; destruct (negb _); lia).
  assert (Eh : strided h d = h').
  { unfold d, h'. destruct (negb _); [apply strided_2|apply strided_1]. }
  assert (Ew : strided w d = w').
  { unfold d, w'. destruct (negb _); [apply strided_2|apply strided_1]. }
  destruct (basic_block_forward_shape fresh cin cout 1 d mode x b h w)
    as (y & Ey & Sy); try assumption.
  { intros E. unfold d. replace cout with cin by lia.
    now rewrite Z.eqb_refl. }
  { rewrite Eh, Ew. exact Hn. }
  rewrite Eh, Ew, Z.mul_1_r in Sy.
  destruct (ResNetResidualBlock.forward _ x) as [r m']. cbn in Ey. subst r.
  assert (Ph : 0 < h').
  { rewrite <- Eh. now apply strided_pos. }
  assert (Pw : 0 < w').
  { rewrite <- Ew. now apply strided_pos. }
  destruct (sequential_repeat_shape ResNetResidualBlock.forward
              (ResNetResidualBlock.train mode
                 (ResNetBasicBlock.__init__ fresh
                    (cout * ResNetBasicBlock.expansion) cout 1 1))
              [b; cout; h'; w']) with (k := Z.to_nat (n - 1)) (x := y)
    as (z & Ez & Sz); try assumption.
  { intros x0 Hx0.
    destruct (basic_block_forward_shape fresh
                (cout * ResNetBasicBlock.expansion) cout 1 1 mode x0 b h' w')
      as (y0 & Ey0 & Sy0); try assumption; try lia.
    - unfold ResNetBasicBlock.expansion. now rewrite Z.mul_1_r.
    - rewrite !strided_1. exact Hn.
    - exists y0. split; [exact Ey0|].
      now rewrite !strided_1, Z.mul_1_r in Sy0. }
  destruct (sequential _ _ y) as [r' rest']. cbn in Ez. subst r'.
  exists z. now split.
Qed.



(** ** The heads, in exact real arithmetic *)

Lemma Rsum_cons (a : R) (l : list R) : Rsum (a :: l) = (a + Rsum l)%R.
Proof. reflexivity. Qed.

Lemma Rsum_scale (f : Z -> R) (c : R) (l : list Z) :
  Rsum (map (fun k => (f k * c)%R) l) = (Rsum (map f l) * c)%R.
Proof.
  induction l as [|a l IH]; cbn [map]; [cbn; lra|].
  rewrite !Rsum_cons, IH. lra.
Qed.

Lemma Rsum_pos (f : Z -> R) (l : list Z) :
  l <> [] -> (forall k, (0 < f k)%R) -> (0 < Rsum (map f l))%R.
Proof.
  intros Hl Hf. destruct l as [|a l]; [now elim Hl|]. clear Hl.
  revert a. induction l as [|b l IH]; intros a; cbn [map].
  - specialize (Hf a). cbn. lra.
  - specialize (IH b). cbn [map] in IH. rewrite Rsum_cons.
    specialize (Hf a). lra.
Qed.

Lemma range_nonempty (n : Z) : 0 < n -> range n <> [].
Proof.
  intros Hn. unfold range.
  destruct (Z.to_nat n) eqn:E; [lia|]. cbn. discriminate.
Qed.

Lemma exp_minus_ln (a s : R) : (0 < s)%R -> exp (a - ln s) = (exp a * / s)%R.
Proof.
  intros Hs. unfold Rminus. rewrite exp_plus, exp_Ropp, exp_ln by exact Hs.
  reflexivity.
Qed.

(** Exponentiated log-soft-max: positive entries that sum to 1 along the
    second dimension. *)
Lemma softmax_rows (z : Tensor) (n k : Z) :
  shape z = [n; k] -> 0 < k ->
  exists l,
    log_softmax_dim1 z = Ok l /\
    shape (pointwise exp l) = [n; k] /\
    forall i,
      (forall j, (0 < item (pointwise exp l) [i; j])%R) /\
      sum_over k (fun j => item (pointwise exp l) [i; j]) = 1%R.
Proof.
  intros Hz Hk. unfold log_softmax_dim1. rewrite Hz.
  eexists. split; [reflexivity|]. split; [reflexivity|].
  intros i. cbn [pointwise item]. split.
  - intros j. apply exp_pos.
  - set (s := sum_over k (fun j => exp (item z [i; j]))).
    assert (Hs : (0 < s)%R).
    { apply Rsum_pos; [now apply range_nonempty|]. intros j. apply exp_pos. }
    unfold sum_over.
    rewrite (map_ext _ (fun j => (exp (item z [i; j]) * / s)%R))
      by (intros j; now apply exp_minus_ln).
    rewrite Rsum_scale. fold (sum_over k (fun j => exp (item z [i; j]))).
    fold s. apply Rinv_r. lra.
Qed.

Lemma tanh_bound (x : R) : (-1 < tanh x < 1)%R.
Proof.
  unfold tanh, sinh, cosh.
  pose proof (exp_pos x) as Ha. pose proof (exp_pos (- x)) as Hb.
  set (a := exp x) in *. set (b := exp (- x)) in *.
  assert (Hc : (0 < (a + b) / 2)%R) by lra.
  assert (Pa : (0 < a / ((a + b) / 2))%R) by (apply Rdiv_lt_0_compat; lra).
  assert (Pb : (0 < b / ((a + b) / 2))%R) by (apply Rdiv_lt_0_compat; lra).
  split.
  - replace ((a - b) / 2 / ((a + b) / 2))%R with (a / ((a + b) / 2) - 1)%R
      by (field; lra). lra.
  - replace ((a - b) / 2 / ((a + b) / 2))%R with (1 - b / ((a + b) / 2))%R
      by (field; lra). lra.
Qed.

Lemma numel_flat (n : Z) : numel [n; numel [1; 11; 11]] = numel [n; 1; 11; 11].
Proof. cbn [numel fold_right]. lia. Qed.

(** The common stem of both heads: a 1x1 convolution to one channel,
    normalisation, ReLU and flattening take [n; c; 11; 11] to [n; 121]. *)
Lemma head_stem (fresh : Init) (inplanes : Z) (b : BatchNorm2d.t)
    (x : Tensor) (n : Z) :
  0 < n -> BatchNorm2d.num_features b = 1 ->
  shape x = [n; inplanes; 11; 11] ->
  exists y z f,
    Conv2d.forward
      (Conv2d.__init__ fresh inplanes 1 (pair_ 1) (pair_ 1) (pair_ 0) true) x
      = Ok y /\
    fst (BatchNorm2d.forward b y) = Ok z /\
    view_flat (relu z) = Ok f /\
    shape f = [n; 121].
Proof.
  intros Hn Hb Hx.
  destruct (Conv2d_forward_shape
              (Conv2d.__init__ fresh inplanes 1 (pair_ 1) (pair_ 1) (pair_ 0) true)
              x [n; 1; 11; 11]) as (y & Ey & Sy).
  { rewrite Hx. unfold Conv2d.__init__, pair_. cbn [fst snd].
    rewrite Conv2d_out_shape_ok by (try lia; reflexivity). reflexivity. }
  destruct (BatchNorm2d_forward_shape b y n 1 11 11 Sy Hb) as (z & Ez & Sz);
    [intros _; lia|].
  exists y, z. eexists. repeat split; try eassumption.
  - unfold view_flat. rewrite relu_shape, Sz.
    destruct (Z.eqb_spec n 0) as [E|_]; [lia|].
    unfold view. rewrite relu_shape, Sz, numel_flat, Z.eqb_refl. reflexivity.
  - reflexivity.
Qed.

(** In exact real arithmetic the policy head returns non-negative rows that
    sum to 1 (no statement about 32-bit floats, where sums are rounded and
    large inputs overflow). *)
Lemma policy_head_rows :
  forall (fresh : Init) (inplanes outplanes : Z) (b : BatchNorm2d.t)
         (x : Tensor) (n : Z),
    0 < n -> 0 < outplanes ->
    BatchNorm2d.num_features b = 1 ->
    shape x = [n; inplanes; 11; 11] ->
    exists y p',
      PolicyNet.forward
        (PolicyNet.set_bn (PolicyNet.__init__ fresh inplanes outplanes) b) x
        = (Ok y, p') /\
      shape y = [n; outplanes] /\
      forall i,
        (forall k, (0 <= item y [i; k])%R) /\
        sum_over outplanes (fun k => item y [i; k]) = 1%R.
Proof.
  intros fresh inplanes outplanes b x n Hn Ho Hb Hx.
  destruct (head_stem fresh inplanes b x n Hn Hb Hx) as (y & z & f & Ey & Ez & Ef & Sf).
  unfold PolicyNet.forward.
  cbn [PolicyNet.set_bn PolicyNet.__init__ PolicyNet.conv PolicyNet.bn PolicyNet.fc
       PolicyNet.outplanes PolicyNet.inplanes].
  rewrite Ey. destruct (BatchNorm2d.forward b y) as [r b']. cbn in Ez. subst r.
  cbn [bind]. rewrite Ef. cbn [bind].
  unfold Linear.forward, Linear.__init__. cbn [Linear.in_features Linear.out_features
    Linear.weight Linear.bias]. rewrite Sf. cbn [Z.eqb Pos.eqb bind].
  match goal with |- context [log_softmax_dim1 ?t] =>
    destruct (softmax_rows t n outplanes eq_refl Ho) as (l & El & Sl & Hl) end.
  rewrite El. cbn [bind].
  eexists. eexists. split; [reflexivity|]. split; [exact Sl|].
  intros i. destruct (Hl i) as [Hpos Hsum]. split; [|exact Hsum].
  intros k. apply Rlt_le, Hpos.
Qed.

(** In exact real arithmetic the value head returns one number per batch
    element, strictly between -1 and 1 (no statement about 32-bit floats,
    where [tanh] rounds to 1 or -1 for large arguments). *)
Lemma value_head_bounded :
  forall (fresh : Init) (inplanes outplanes : Z) (b : BatchNorm2d.t)
         (x : Tensor) (n : Z),
    0 < n ->
    BatchNorm2d.num_features b = 1 ->
    shape x = [n; inplanes; 11; 11] ->
    exists y v',
      ValueNet.forward
        (ValueNet.set_bn (ValueNet.__init__ fresh inplanes outplanes) b) x
        = (Ok y, v') /\
      shape y = [n; 1] /\
      forall idx, (-1 < item y idx < 1)%R.
Proof.
  intros fresh inplanes outplanes b x n Hn Hb Hx.
  destruct (head_stem fresh inplanes b x n Hn Hb Hx) as (y & z & f & Ey & Ez & Ef & Sf).
  unfold ValueNet.forward.
  cbn [ValueNet.set_bn ValueNet.__init__ ValueNet.conv ValueNet.bn ValueNet.fc1
       ValueNet.fc2 ValueNet.outplanes].
  rewrite Ey. destruct (BatchNorm2d.forward b y) as [r b']. cbn in Ez. subst r.
  cbn [bind]. rewrite Ef. cbn [bind].
  unfold Linear.forward, Linear.__init__. cbn [Linear.in_features Linear.out_features
    Linear.weight Linear.bias]. rewrite Sf. cbn [Z.eqb Pos.eqb bind].
  rewrite relu_shape. cbn [shape Z.eqb Pos.eqb bind].
  eexists. eexists. split; [reflexivity|]. split; [reflexivity|].
  intros idx. cbn [pointwise item]. apply tanh_bound.
Qed.

(** ** The encoder and the construction of the model *)

Lemma last_item_cons {A : Type} (a : A) (l : list A) :
  last_item (a :: l) = Ok (last l a).
Proof.
  unfold last_item. destruct (rev (a :: l)) as [|c t] eqn:E.
  - apply (f_equal (@length A)) in E. rewrite length_rev in E. discriminate E.
  - f_equal. apply (f_equal (@rev A)) in E. rewrite rev_involutive in E.
    cbn [rev] in E.
    assert (L : last (a :: l) a = c) by (rewrite E; apply last_last).
    rewrite <- L. destruct l; reflexivity.
Qed.

Lemma last_repeat {A : Type} (a b : A) (k : nat) :
  last (repeat b k) a = match k with O => a | S _ => b end.
Proof.
  induction k as [|k IH]; [reflexivity|].
  cbn [repeat]. destruct k as [|k]; [reflexivity|].
  cbn [repeat last] in *. exact IH.
Qed.

(** The last block of a stage has the stage's width and expansion. *)
Lemma stage_last_block (fresh : Init) (cin cout n e : Z) :
  exists block,
    last_item (ResNetLayer.blocks (ResNetLayer.__init__ fresh cin cout n e))
      = Ok block /\
    ResNetResidualBlock.expanded_channels block = cout * e.
Proof.
  rewrite ResNetLayer_blocks, last_item_cons, last_repeat.
  eexists. split; [reflexivity|].
  destruct (Z.to_nat (n - 1)); reflexivity.
Qed.


(** The list [blocks_size] given to [DualRes] reaches no layer. *)
Lemma DualRes_blocks_size_unused
    (fresh : Init) (cin n_classes : Z) (cuda tpu : bool) (dev : option Device)
    (blocks_size blocks_size' deepths : list Z) (e : Z) :
  DualRes.__init__ fresh cin n_classes cuda tpu dev blocks_size deepths e
  = DualRes.__init__ fresh cin n_classes cuda tpu dev blocks_size' deepths e.
Proof. reflexivity. Qed.

Lemma gate_forward_shape
    (fresh : Init) (cin cout : Z) (mode : bool) (x : Tensor) (n h w : Z) :
  shape x = [n; cin; h; w] -> 0 < h -> 0 < w ->
  (mode = true -> n * h * w <> 1) ->
  exists y,
    fst (ConvBn.forward
           (ConvBn.train mode
              (ConvBn.mk (Conv2d.__init__ fresh cin cout (pair_ 3) (pair_ 1)
                                          (pair_ 1) false)
                         (BatchNorm2d.__init__ cout))) x) = Ok y
    /\ shape y = [n; cout; h; w].
Proof.
  intros Hx Hh Hw Hn. apply ConvBn_forward_shape.
  - rewrite Hx. cbn [ConvBn.train ConvBn.conv].
    unfold Conv2d.__init__, pair_. cbn [fst snd].
    rewrite Conv2d_out_shape_ok by (try lia; unfold fits; apply Z.leb_le; lia).
    rewrite !conv_out_stride1. repeat f_equal; lia.
  - reflexivity.
  - cbn. exact Hn.
Qed.

Lemma encoder_forward_shape
    (fresh : Init) (cin b0 d0 : Z) (bs ds : list Z) (mode : bool)
    (x : Tensor) (n h w : Z) :
  shape x = [n; cin; h; w] -> 0 < h -> 0 < w ->
  (mode = true -> n * h * w <> 1) ->
  exists enc y,
    ResNetEncoder.__init__ fresh cin (b0 :: bs) (d0 :: ds) 1 = Ok enc /\
    fst (ResNetEncoder.forward (ResNetEncoder.train mode enc) x) = Ok y /\
    shape y = [n; b0; h; w].
Proof.
  intros Hx Hh Hw Hn. eexists.
  destruct (gate_forward_shape fresh cin b0 mode x n h w Hx Hh Hw Hn)
    as (g & Eg & Sg).
  destruct (stage_forward_shape fresh b0 b0 d0 mode (relu g) n h w)
    as (y & Ey & Sy); try assumption.
  { cbv zeta. rewrite Z.eqb_refl. exact Hn. }
  cbv zeta in Sy. rewrite Z.eqb_refl in Sy. cbn [negb] in Sy.
  exists y. split; [reflexivity|].
  unfold ResNetEncoder.forward, ResNetEncoder.train.
  cbn [ResNetEncoder.gate ResNetEncoder.blocks ResNetEncoder.blocks_sizes
       ResNetEncoder.in_out_block_sizes map sequential].
  destruct (ConvBn.forward _ x) as [rg g']. cbn in Eg. subst rg.
  destruct (ResNetLayer.forward _ (relu g)) as [ry l']. cbn in Ey. subst ry.
  cbn. now split.
Qed.

(** ** The whole network *)

(** The model as [DualRes.__init__] builds it (default expansion). *)
Lemma DualRes_init (fresh : Init) (cin n_classes : Z) (cuda tpu : bool)
    (dev : option Device) (blocks_size ds : list Z) (d0 : Z) :
  exists enc,
    ResNetEncoder.__init__ fresh cin [128] (d0 :: ds) 1 = Ok enc /\
    DualRes.__init__ fresh cin n_classes cuda tpu dev blocks_size (d0 :: ds) 1
    = Ok (DualRes.mk cuda tpu dev enc
            (PolicyNet.__init__ fresh 128 n_classes)
            (ValueNet.__init__ fresh 128 n_classes) true).
Proof.
  eexists. split; [reflexivity|].
  destruct (stage_last_block fresh 128 128 d0 1) as (block & Eb & Hb).
  unfold DualRes.__init__, ResNetEncoder.__init__.
  cbn [bind ResNetEncoder.blocks].
  rewrite (last_item_cons (ResNetLayer.__init__ fresh 128 128 d0 1) []).
  cbn [last bind]. rewrite Eb. cbn [bind]. rewrite Hb. reflexivity.
Qed.

(** On a batch of 11x11 boards the forward pass returns, in either mode: a
    distribution per row from the policy head and a number strictly between
    -1 and 1 per row from the value head. *)
Lemma DualRes_forward_returns
    (fresh : Init) (cin n_classes : Z) (cuda tpu : bool) (dev : option Device)
    (blocks_size ds : list Z) (d0 : Z) (mode : bool) (x : Tensor) (n : Z) :
  0 < n -> 0 < n_classes -> shape x = [n; cin; 11; 11] ->
  exists m pi v,
    DualRes.__init__ fresh cin n_classes cuda tpu dev blocks_size (d0 :: ds) 1
      = Ok m /\
    fst (DualRes.forward (DualRes.train mode m) x) = Ok (pi, v) /\
    shape pi = [n; n_classes] /\ shape v = [n; 1] /\
    (forall i, (forall k, (0 <= item pi [i; k])%R) /\
               sum_over n_classes (fun k => item pi [i; k]) = 1%R) /\
    (forall idx, (-1 < item v idx < 1)%R).
Proof.
  intros Hn Hc Hx.
  destruct (DualRes_init fresh cin n_classes cuda tpu dev blocks_size ds d0)
    as (enc & Eenc & Em).
  destruct (encoder_forward_shape fresh cin 128 d0 [] ds mode x n 11 11)
    as (enc' & f & Eenc' & Ef & Sf); try assumption; try lia.
  rewrite Eenc in Eenc'. injection Eenc' as <-.
  destruct (policy_head_rows fresh 128 n_classes
              (BatchNorm2d.train mode (BatchNorm2d.__init__ 1)) f n)
    as (pi & p' & Ep & Sp & Hp); try assumption; try reflexivity.
  destruct (value_head_bounded fresh 128 n_classes
              (BatchNorm2d.train mode (BatchNorm2d.__init__ 1)) f n)
    as (v & v' & Ev & Sv & Hv); try assumption; try reflexivity.
  eexists. exists pi, v. split; [exact Em|].
  unfold DualRes.forward, DualRes.train.
  cbn [DualRes.encoder DualRes.policy DualRes.value DualRes.use_cuda
       DualRes.use_tpu DualRes.dev DualRes.training].
  destruct (ResNetEncoder.forward _ x) as [rf e']. cbn in Ef. subst rf.
  change (PolicyNet.train mode (PolicyNet.__init__ fresh 128 n_classes))
    with (PolicyNet.set_bn (PolicyNet.__init__ fresh 128 n_classes)
            (BatchNorm2d.train mode (BatchNorm2d.__init__ 1))).
  change (ValueNet.train mode (ValueNet.__init__ fresh 128 n_classes))
    with (ValueNet.set_bn (ValueNet.__init__ fresh 128 n_classes)
            (BatchNorm2d.train mode (BatchNorm2d.__init__ 1))).
  rewrite Ep, Ev. cbn [bind fst].
  split; [reflexivity|]. split; [exact Sp|]. split; [exact Sv|].
  split; [exact Hp|exact Hv].
Qed.

Lemma DualRes_train_twice (a b : bool) (m : DualRes.t) :
  DualRes.train a (DualRes.train b m) = DualRes.train a m.
Proof.
  unfold DualRes.train; cbn. now rewrite ResNetEncoder_train_twice.
Qed.

Lemma select0_shape (x : Tensor) (n : Z) (rest : list Z) :
  shape x = n :: rest -> 0 < n ->
  exists y, select0 x = Ok y /\ shape y = rest /\
            forall idx, item y idx = item x (0 :: idx).
Proof.
  intros Hx Hn. unfold select0. rewrite Hx.
  apply Z.ltb_lt in Hn. rewrite Hn. eexists. repeat split.
Qed.

(** On the host (no device transfer) and in exact real arithmetic, [predict]
    on an array of 1210 entries returns a distribution over the classes and
    a value strictly between -1 and 1, whatever the mode of the model before
    the call. *)
Lemma predict_returns
    (fresh : Init) (n_classes : Z) (dev : option Device)
    (blocks_size ds : list Z) (d0 : Z) (mode : bool)
    (rt : Runtime) (w : World) (x : Tensor) :
  0 < n_classes -> numel (shape x) = 1210 ->
  exists m pi v,
    DualRes.__init__ fresh 10 n_classes false false dev blocks_size (d0 :: ds) 1
      = Ok m /\
    fst (DualRes.predict rt w (DualRes.train mode m) x) = Ok (pi, v) /\
    shape pi = [n_classes] /\ shape v = [1] /\
    (forall k, (0 <= item pi [k])%R) /\
    sum_over n_classes (fun k => item pi [k]) = 1%R /\
    (forall idx, (-1 < item v idx < 1)%R).
Proof.
  intros Hc Hx.
  assert (Ev : exists x', view x [1; 10; 11; 11] = Ok x'
                          /\ shape x' = [1; 10; 11; 11]).
  { unfold view. rewrite Hx. cbn. eexists. split; reflexivity. }
  destruct Ev as (x' & Ex' & Sx').
  destruct (DualRes_forward_returns fresh 10 n_classes false false dev
              blocks_size ds d0 false x' 1)
    as (m & pi & v & Em & Ef & Sp & Sv & Hp & Hv); try assumption; try lia.
  destruct (select0_shape pi 1 [n_classes] Sp) as (p0 & Ep0 & Sp0 & Ip0); [lia|].
  destruct (select0_shape v 1 [1] Sv) as (v0 & Ev0 & Sv0 & Iv0); [lia|].
  exists m, p0, v0. split; [exact Em|].
  rewrite predict_unfold.
  assert (Eprep : DualRes.prepare rt (DualRes.train mode m) x = Ok x').
  { unfold DualRes.prepare.
    destruct (DualRes_init fresh 10 n_classes false false dev blocks_size ds d0)
      as (enc & _ & Em').
    rewrite Em' in Em. injection Em as <-. cbn. exact Ex'. }
  rewrite Eprep. unfold DualRes.eval. rewrite DualRes_train_twice.
  cbn [fst]. rewrite Ef. cbn [bind fst snd]. rewrite Ep0. cbn [bind].
  rewrite Ev0. cbn [bind].
  split; [reflexivity|]. split; [exact Sp0|]. split; [exact Sv0|].
  split; [|split].
  - intros k. rewrite Ip0. apply Hp.
  - rewrite <- (proj2 (Hp 0)). unfold sum_over. f_equal.
    apply map_ext. intros k. apply Ip0.
  - intros idx. rewrite Iv0. apply Hv.
Qed.

(** A freshly built model is in training mode. *)
Lemma fresh_block_in_training (fresh : Init) (cin cout e d : Z) :
  ResNetResidualBlock.train true (ResNetBasicBlock.__init__ fresh cin cout e d)
  = ResNetBasicBlock.__init__ fresh cin cout e d.
Proof.
  unfold ResNetBasicBlock.__init__, ResNetResidualBlock.__init__,
    ResNetResidualBlock.train, ResNetResidualBlock.set_blocks,
    ResNetResidualBlock.set_shortcut; cbn.
  destruct (ResNetResidualBlock.should_apply_shortcut _); reflexivity.
Qed.

Lemma fresh_model_in_training
    (fresh : Init) (cin n_classes : Z) (cuda tpu : bool) (dev : option Device)
    (blocks_size ds : list Z) (d0 : Z) (m : DualRes.t) :
  DualRes.__init__ fresh cin n_classes cuda tpu dev blocks_size (d0 :: ds) 1
    = Ok m ->
  DualRes.train true m = m.
Proof.
  intros Em.
  destruct (DualRes_init fresh cin n_classes cuda tpu dev blocks_size ds d0)
    as (enc & Eenc & Em').
  rewrite Em' in Em. injection Em as <-. injection Eenc as <-.
  unfold DualRes.train, ResNetEncoder.train, ResNetLayer.train.
  cbn [DualRes.encoder DualRes.policy DualRes.value DualRes.use_cuda
       DualRes.use_tpu DualRes.dev ResNetEncoder.blocks ResNetEncoder.gate
       ResNetEncoder.blocks_sizes ResNetEncoder.in_out_block_sizes map].
  rewrite ResNetLayer_blocks. cbn [map]. rewrite map_repeat.
  rewrite !fresh_block_in_training. rewrite <- ResNetLayer_blocks.
  reflexivity.
Qed.

(** A model built with [tpu=True] and no [dev]: the construction succeeds,
    and [predict] hands [None] to [tensor.to]; when that transfer raises,
    [predict] raises the same exception.  Whether it raises is the
    runtime's decision. *)
Lemma tpu_without_dev_follows_runtime
    (fresh : Init) (n_classes : Z) (rt : Runtime) (w : World) (x : Tensor) :
  exists m,
    DualRes.__init__ fresh 10 n_classes false true None [128] [20] 1 = Ok m /\
    (forall e, to_raises rt None = Some e ->
               fst (DualRes.predict rt w m x) = Raise e).
Proof.
  destruct (DualRes_init fresh 10 n_classes false true None [128] [] 20)
    as (enc & Eenc & Em).
  eexists. split; [exact Em|].
  intros e He. rewrite predict_unfold. unfold DualRes.prepare.
  cbn [DualRes.use_tpu DualRes.dev]. rewrite He. reflexivity.
Qed.

(** ** The inference entry point *)

(** C3: whatever the forward pass does and however it ends, the gradient
    switch after [predict] is what it was before the call; the forward pass
    only ever runs with the switch off (forcing it off at the entry of the
    forward pass changes nothing); and when [predict] returns, the model is
    left in evaluation mode. *)
Theorem predict_scopes_no_grad :
  (forall fwd (rt : Runtime) (w : World) (m : DualRes.t) (x : Tensor),
     grad_enabled (fst (snd (DualRes.predict_with fwd rt w m x)))
     = grad_enabled w) /\
  (forall fwd (rt : Runtime) (w : World) (m : DualRes.t) (x : Tensor),
     DualRes.predict_with fwd rt w m x
     = DualRes.predict_with
         (fun w' => fwd (set_grad_enabled false w')) rt w m x) /\
  (forall (rt : Runtime) (w : World) (m : DualRes.t) (x : Tensor),
     is_ok (fst (DualRes.predict rt w m x)) = true ->
     let m' := snd (snd (DualRes.predict rt w m x)) in
     m' = DualRes.eval m /\ DualRes.training m' = false /\ frozen m').
Proof.
  split; [|split].
  - intros fwd rt w m x. unfold DualRes.predict_with, no_grad.
    destruct (DualRes.prepare rt m x) as [x'|e]; [|reflexivity].
    destruct (fwd (set_grad_enabled false w) (DualRes.eval m) x')
      as [r [w' m']]. reflexivity.
  - intros fwd rt w m x. unfold DualRes.predict_with, no_grad.
    destruct (DualRes.prepare rt m x) as [x'|e]; reflexivity.
  - intros rt w m x. rewrite predict_unfold.
    destruct (DualRes.prepare rt m x) as [x'|e]; cbn [fst snd is_ok].
    + intros _. split; [reflexivity|]. split; [reflexivity|]. apply eval_frozen.
    + discriminate.
Qed.

(** C3 on the board of zeros: a freshly built model, still in training mode,
    is in evaluation mode once [predict] has returned. *)
Lemma predict_scopes_no_grad_witness :
  exists m,
    DualRes.__init__ (full 0) 10 5 false false None [128] [20] 1 = Ok m /\
    let c := DualRes.predict (mkRuntime (fun _ => None) None) (mkWorld true)
                             m (full 0 [10; 11; 11]) in
    is_ok (fst c) = true /\
    snd (snd c) = DualRes.eval m /\
    DualRes.training (snd (snd c)) = false /\
    frozen (snd (snd c)).
Proof.
  destruct (predict_returns (full 0) 5 None [128] [] 20 true
              (mkRuntime (fun _ => None) None) (mkWorld true)
              (full 0 [10; 11; 11]) ltac:(lia) eq_refl)
    as (m & pi & v & Em & Ep & _).
  exists m. split; [exact Em|].
  rewrite (fresh_model_in_training _ _ _ _ _ _ _ _ _ _ Em) in Ep.
  assert (Hok : is_ok (fst (DualRes.predict (mkRuntime (fun _ => None) None)
                              (mkWorld true) m (full 0 [10; 11; 11]))) = true)
    by (rewrite Ep; reflexivity).
  split; [exact Hok|].
  exact (proj2 (proj2 predict_scopes_no_grad) _ _ _ _ Hok).
Defined.

(** C8: a second call of [predict] on the same array returns the same result
    as the first and leaves the model as the first call left it; the first
    call changes nothing but the mode of the model, and leaves the gradient
    switch as it found it. *)
Theorem predict_twice_same :
  forall (rt : Runtime) (w : World) (m : DualRes.t) (x : Tensor),
    let c1 := DualRes.predict rt w m x in
    let c2 := DualRes.predict rt (fst (snd c1)) (snd (snd c1)) x in
    fst c2 = fst c1 /\
    snd c2 = snd c1 /\
    fst (snd c1) = w /\
    (snd (snd c1) = m \/ snd (snd c1) = DualRes.eval m).
Proof.
  intros rt w m x c1 c2. unfold c2, c1. clear c1 c2.
  rewrite (predict_unfold rt w m x).
  destruct (DualRes.prepare rt m x) as [x'|e] eqn:E; cbn [fst snd].
  - rewrite predict_unfold, prepare_eval, E, eval_twice.
    cbn [fst snd]. repeat split. now right.
  - rewrite predict_unfold, E. cbn [fst snd]. repeat split. now left.
Qed.

(** By contrast a normalisation layer in training mode is changed by every
    forward pass on a 4-dimensional input: this is the state [predict] keeps
    out of reach by calling [eval] first. *)
Lemma BatchNorm2d_forward_training_counts
    (b : BatchNorm2d.t) (x : Tensor) (n c h w : Z) :
  BatchNorm2d.training b = true -> shape x = [n; c; h; w] ->
  BatchNorm2d.num_batches_tracked (snd (BatchNorm2d.forward b x))
  = BatchNorm2d.num_batches_tracked b + 1.
Proof.
  intros Ht Hx. unfold BatchNorm2d.forward. rewrite Hx, Ht.
  destruct (n * h * w =? 1); [reflexivity|].
  destruct (negb (c =? BatchNorm2d.num_features b)); reflexivity.
Qed.

(** * Further properties of the module *)

(** ** Conv2dAuto at any stride *)

(** [strided h s] is [h / s] rounded up. *)
Lemma strided_is_ceiling (h s : Z) :
  0 < s -> s * (strided h s - 1) < h <= s * strided h s.
Proof.
  intros Hs. unfold strided.
  pose proof (Z.div_mod (h - 1) s ltac:(lia)).
  pose proof (Z.mod_pos_bound (h - 1) s Hs). nia.
Qed.

Lemma odd_half (m : Z) : (2 * m + 1) / 2 = m.
Proof.
  symmetry. apply (Z.div_unique (2 * m + 1) 2 m 1); lia.
Qed.

(** X1: with an odd kernel size [2m+1] a [Conv2dAuto] of stride [s] turns a
    side of length [h] into one of length [h / s] rounded up, whatever the
    kernel size and the padding the caller passed. *)
Theorem Conv2dAuto_odd_kernel_divides_size :
  forall (fresh : Init) (cin cout mh mw sh sw : Z) (p : Z * Z) (bias : bool)
         (n h w : Z),
    0 < sh -> 0 < sw -> 0 < h -> 0 < w ->
    exists h' w',
      Conv2d.out_shape
        (Conv2dAuto.__init__ fresh cin cout (2 * mh + 1, 2 * mw + 1)
                             (sh, sw) p bias)
        [n; cin; h; w] = Ok [n; cout; h'; w'] /\
      sh * (h' - 1) < h <= sh * h' /\
      sw * (w' - 1) < w <= sw * w'.
Proof.
  intros fresh cin cout mh mw sh sw p bias n h w Hsh Hsw Hh Hw.
  exists (strided h sh), (strided w sw).
  split; [|split; now apply strided_is_ceiling].
  unfold Conv2dAuto.__init__, Conv2d.__init__, Conv2d.set_padding.
  cbn [Conv2d.in_channels Conv2d.out_channels Conv2d.kernel_size
       Conv2d.stride Conv2d.dilation Conv2d.weight Conv2d.bias fst snd].
  rewrite Conv2d_out_shape_ok by (try lia; now apply fits_auto).
  rewrite !odd_half. unfold conv_out, strided.
  replace (h + 2 * mh - 1 * (2 * mh + 1 - 1) - 1) with (h - 1) by lia.
  replace (w + 2 * mw - 1 * (2 * mw + 1 - 1) - 1) with (w - 1) by lia.
  reflexivity.
Qed.

Lemma Conv2dAuto_odd_kernel_divides_size_witness :
  exists h' w',
    Conv2d.out_shape
      (Conv2dAuto.__init__ (full 0) 3 8 (2 * 2 + 1, 2 * 1 + 1) (2, 3)
                           (pair_ 0) false)
      [1; 3; 11; 11] = Ok [1; 8; h'; w'] /\
    2 * (h' - 1) < 11 <= 2 * h' /\
    3 * (w' - 1) < 11 <= 3 * w'.
Proof.
  apply (Conv2dAuto_odd_kernel_divides_size (full 0) 3 8 2 1 2 3 (pair_ 0)
           false 1 11 11); lia.
Defined.

(** ** Basic blocks *)

(** X2: a basic block whose shortcut is a projection, or whose stride is 1,
    maps a batch of [in_channels] maps of size [h] by [w] to
    [out_channels * expansion] maps whose sides are [h / d] and [w / d]
    rounded up, [d] being the downsampling. *)
Theorem basic_block_output_shape :
  forall (fresh : Init) (cin cout e d : Z) (mode : bool) (x : Tensor)
         (n h w : Z),
    shape x = [n; cin; h; w] -> 0 < h -> 0 < w -> 0 < d ->
    (cin = cout * e -> d = 1) ->
    (mode = true -> n * strided h d * strided w d <> 1) ->
    exists y h' w',
      fst (ResNetResidualBlock.forward
             (ResNetResidualBlock.train mode
                (ResNetBasicBlock.__init__ fresh cin cout e d)) x) = Ok y /\
      shape y = [n; cout * e; h'; w'] /\
      d * (h' - 1) < h <= d * h' /\
      d * (w' - 1) < w <= d * w'.
Proof.
  intros fresh cin cout e d mode x n h w Hx Hh Hw Hd Hid Hn.
  destruct (basic_block_forward_shape fresh cin cout e d mode x n h w
              Hx Hh Hw Hd Hid Hn) as (y & Ey & Sy).
  exists y, (strided h d), (strided w d).
  repeat split; try assumption; now apply strided_is_ceiling.
Qed.

Lemma basic_block_output_shape_witness :
  exists y h' w',
    fst (ResNetResidualBlock.forward
           (ResNetResidualBlock.train false
              (ResNetBasicBlock.__init__ (full 0) 64 32 4 3))
           (full 0 [2; 64; 11; 7])) = Ok y /\
    shape y = [2; 32 * 4; h'; w'] /\
    3 * (h' - 1) < 11 <= 3 * h' /\
    3 * (w' - 1) < 7 <= 3 * w'.
Proof.
  apply (basic_block_output_shape (full 0) 64 32 4 3 false
           (full 0 [2; 64; 11; 7]) 2 11 7);
    try reflexivity; try lia; discriminate.
Defined.





(** ** The sum of the two branches *)

Lemma Forall2_rev {A B : Type} (R : A -> B -> Prop) (l : list A) (l' : list B) :
  Forall2 R l l' -> Forall2 R (rev l) (rev l').
Proof.
  induction 1 as [|a b l l' Hab Hl IH]; cbn [rev]; [constructor|].
  apply Forall2_app; [exact IH|]. constructor; [exact Hab|constructor].
Qed.

Lemma broadcast_index_in_range (idx s : list Z) :
  in_range idx s -> broadcast_index s idx = idx.
Proof.
  induction 1 as [|i d idx s Hi Hrest IH]; cbn [broadcast_index]; [reflexivity|].
  rewrite IH. destruct (Z.eqb_spec d 1) as [->|_]; [|reflexivity].
  f_equal. lia.
Qed.

(** On tensors of one shape [x += r] adds entry by entry. *)
Lemma iadd_entries (x r : Tensor) :
  shape r = shape x ->
  exists y, iadd x r = Ok y /\ shape y = shape x /\
            forall idx, in_range idx (shape x) ->
                        item y idx = (item x idx + item r idx)%R.
Proof.
  intros H. unfold iadd. rewrite H, expandable_refl.
  eexists. split; [reflexivity|]. split; [reflexivity|].
  intros idx Hidx. cbn [item].
  rewrite (broadcast_index_in_range (rev idx) (rev (shape x)))
    by now apply Forall2_rev.
  now rewrite rev_involutive.
Qed.

(** X4: a [ResNetResidualBlock] used on its own keeps the identity it
    inherits as main branch; with [in_channels = out_channels * expansion]
    its [forward] adds the input to itself: every entry of the result is
    twice the entry of the input. *)
Theorem bare_block_doubles_its_input :
  forall (fresh : Init) (cout e d : Z) (mode : bool) (x : Tensor),
    exists y,
      fst (ResNetResidualBlock.forward
             (ResNetResidualBlock.train mode
                (ResNetResidualBlock.__init__ fresh (cout * e) cout e d)) x)
        = Ok y /\
      shape y = shape x /\
      forall idx, in_range idx (shape x) -> item y idx = (2 * item x idx)%R.
Proof.
  intros fresh cout e d mode x.
  rewrite forward_identity_path.
  2:{ unfold ResNetResidualBlock.should_apply_shortcut,
        ResNetResidualBlock.expanded_channels; cbn.
      now rewrite Z.eqb_refl. }
  cbn [ResNetResidualBlock.train ResNetResidualBlock.blocks
       ResNetResidualBlock.__init__ ResNetResidualBlock.set_shortcut
       train_blocks call_blocks fst bind].
  destruct (iadd_entries x x eq_refl) as (y & Ey & Sy & Hy).
  exists y. split; [exact Ey|]. split; [exact Sy|].
  intros idx Hidx. rewrite (Hy idx Hidx). lra.
Qed.

Lemma Conv2d_out_shape_wrong_channels (c : Conv2d.t) (n ci h w : Z) :
  ci <> Conv2d.in_channels c ->
  Conv2d.out_shape c [n; ci; h; w] = Raise RuntimeError.
Proof.
  intros H. unfold Conv2d.out_shape, Conv2d.out_size.
  destruct (Conv2d.kernel_size c), (Conv2d.stride c), (Conv2d.padding c),
    (Conv2d.dilation c).
  apply Z.eqb_neq in H. now rewrite H.
Qed.

Lemma ConvBn_forward_wrong_channels (m : ConvBn.t) (x : Tensor) (n ci h w : Z) :
  shape x = [n; ci; h; w] -> ci <> Conv2d.in_channels (ConvBn.conv m) ->
  ConvBn.forward m x = (Raise RuntimeError, m).
Proof.
  intros Hx Hc. unfold ConvBn.forward, Conv2d.forward.
  rewrite Hx, Conv2d_out_shape_wrong_channels by exact Hc. reflexivity.
Qed.




Lemma basic_block_rejects_other_channels_aux
    (fresh : Init) (cin cout e d : Z) (mode : bool) (x : Tensor)
    (n c h w : Z) :
  shape x = [n; c; h; w] -> c <> cin ->
  fst (ResNetResidualBlock.forward
         (ResNetResidualBlock.train mode
            (ResNetBasicBlock.__init__ fresh cin cout e d)) x)
  = Raise RuntimeError.
Proof.
  intros Hx Hc.
  destruct (cin =? cout * e) eqn:Hg.
  - rewrite forward_identity_path
      by (rewrite basic_block_should_apply, Hg; reflexivity).
    rewrite basic_block_blocks. cbn [call_blocks].
    rewrite (ConvBn_forward_wrong_channels _ x n c h w Hx) by exact Hc.
    reflexivity.
  - rewrite forward_projection_path
      by (rewrite basic_block_should_apply, Hg; reflexivity).
    cbn [ResNetResidualBlock.train ResNetResidualBlock.shortcut].
    rewrite basic_block_shortcut, residual_block_shortcut, Hg.
    cbn [negb train_shortcut call_shortcut].
    rewrite (ConvBn_forward_wrong_channels _ x n c h w Hx) by exact Hc.
    reflexivity.
Qed.

(** X6: a basic block raises the runtime error on every input whose channel
    count is not its [in_channels], in either mode and whichever shortcut it
    has. *)
Theorem basic_block_rejects_other_channels :
  forall (fresh : Init) (cin cout e d : Z) (mode : bool) (x : Tensor)
         (n c h w : Z),
    shape x = [n; c; h; w] -> c <> cin ->
    fst (ResNetResidualBlock.forward
           (ResNetResidualBlock.train mode
              (ResNetBasicBlock.__init__ fresh cin cout e d)) x)
    = Raise RuntimeError.
Proof.
  intros fresh cin cout e d mode x n c h w.
  apply basic_block_rejects_other_channels_aux.
Qed.

Lemma basic_block_rejects_other_channels_witness :
  fst (ResNetResidualBlock.forward
         (ResNetResidualBlock.train false
            (ResNetBasicBlock.__init__ (full 0) 128 128 1 1))
         (full 0 [1; 10; 11; 11]))
  = Raise RuntimeError.
Proof.
  apply (basic_block_rejects_other_channels (full 0) 128 128 1 1 false
           (full 0 [1; 10; 11; 11]) 1 10 11 11); [reflexivity|lia].
Defined.

(** ** Stages *)

(** X7: a stage has [n] blocks when [n >= 1] and exactly one block
    otherwise: a block count of 0 or less still builds the first block. *)
Theorem stage_block_count :
  forall (fresh : Init) (cin cout n e : Z),
    Z.of_nat (length (ResNetLayer.blocks (ResNetLayer.__init__ fresh cin cout n e)))
    = Z.max 1 n.
Proof.
  intros fresh cin cout n e. rewrite ResNetLayer_blocks. cbn [length].
  rewrite repeat_length. lia.
Qed.

Lemma stage_rejects_expansion (fresh : Init) (cin cout n e : Z) (mode : bool)
    (x : Tensor) (b h w : Z) :
  let d := if negb (cin =? cout) then 2 else 1 in
  2 <= n -> e <> 1 -> cout <> 0 -> cin <> cout * e ->
  shape x = [b; cin; h; w] -> 0 < h -> 0 < w ->
  (mode = true -> b * strided h d * strided w d <> 1) ->
  fst (ResNetLayer.forward
         (ResNetLayer.train mode (ResNetLayer.__init__ fresh cin cout n e)) x)
  = Raise RuntimeError.
Proof.
  intros d Hn He Hc Hne Hx Hh Hw Hm.
  unfold ResNetLayer.forward, ResNetLayer.train.
  cbn [ResNetLayer.blocks]. rewrite ResNetLayer_blocks.
  destruct (Z.to_nat (n - 1)) as [|k] eqn:Ek; [lia|].
  cbn [repeat map sequential]. fold d.
  assert (Hd : 0 < d) by (unfold d; destruct (negb _); lia).
  destruct (basic_block_forward_shape fresh cin cout e d mode x b h w)
    as (y & Ey & Sy); try assumption; [intros E; now elim Hne|].
  destruct (ResNetResidualBlock.forward _ x) as [r m']. cbn in Ey. subst r.
  pose proof (basic_block_rejects_other_channels_aux fresh
                (cout * ResNetBasicBlock.expansion) cout e 1 mode y
                b (cout * e) (strided h d) (strided w d) Sy) as Hrej.
  destruct (ResNetResidualBlock.forward _ y) as [r2 m2]. cbn in Hrej.
  rewrite Hrej; [reflexivity|].
  unfold ResNetBasicBlock.expansion. nia.
Qed.




(** ** What the heads accept *)








(** ** The encoder and the model as a whole *)




(** The model as [DualRes.__init__] builds it, for any expansion. *)
Lemma DualRes_init_any (fresh : Init) (cin n_classes : Z) (cuda tpu : bool)
    (dev : option Device) (blocks_size ds : list Z) (d0 e : Z) :
  DualRes.__init__ fresh cin n_classes cuda tpu dev blocks_size (d0 :: ds) e
  = Ok (DualRes.mk cuda tpu dev
          (ResNetEncoder.mk [128]
             (ConvBn.mk (Conv2d.__init__ fresh cin 128 (pair_ 3) (pair_ 1)
                                         (pair_ 1) false)
                        (BatchNorm2d.__init__ 128))
             []
             [ResNetLayer.__init__ fresh 128 128 d0 e])
          (PolicyNet.__init__ fresh (128 * e) n_classes)
          (ValueNet.__init__ fresh (128 * e) n_classes) true).
Proof.
  destruct (stage_last_block fresh 128 128 d0 e) as (block & Eb & Hb).
  unfold DualRes.__init__, ResNetEncoder.__init__.
  cbn [bind ResNetEncoder.blocks].
  rewrite (last_item_cons (ResNetLayer.__init__ fresh 128 128 d0 e) []).
  cbn [last bind]. rewrite Eb. cbn [bind]. rewrite Hb. reflexivity.
Qed.


(** X14: on a non-empty batch of boards of 11 by 11 with as many planes as
    the model was built for, the forward pass of the model returns, in either
    mode, and its two results have the shapes [n; n_classes] and [n; 1]: the
    128 channels of the encoder are what both heads were built for, and the
    121 entries of a map what their linear layers take. *)
Theorem DualRes_forward_on_boards :
  forall (fresh : Init) (cin n_classes : Z) (cuda tpu : bool)
         (dev : option Device) (blocks_size ds : list Z) (d0 : Z)
         (mode : bool) (x : Tensor) (n : Z),
    0 < n -> 0 < n_classes -> shape x = [n; cin; 11; 11] ->
    exists m pi v,
      DualRes.__init__ fresh cin n_classes cuda tpu dev blocks_size
                       (d0 :: ds) 1 = Ok m /\
      fst (DualRes.forward (DualRes.train mode m) x) = Ok (pi, v) /\
      shape pi = [n; n_classes] /\ shape v = [n; 1].
Proof.
  intros fresh cin n_classes cuda tpu dev blocks_size ds d0 mode x n Hn Hc Hx.
  destruct (DualRes_forward_returns fresh cin n_classes cuda tpu dev
              blocks_size ds d0 mode x n Hn Hc Hx)
    as (m & pi & v & Em & Ef & Sp & Sv & _).
  exists m, pi, v. repeat split; assumption.
Qed.

Lemma DualRes_forward_on_boards_witness :
  exists m pi v,
    DualRes.__init__ (full 0) 10 5 false false None [128] [20] 1 = Ok m /\
    fst (DualRes.forward (DualRes.train true m) (full 0 [4; 10; 11; 11]))
      = Ok (pi, v) /\
    shape pi = [4; 5] /\ shape v = [4; 1].
Proof.
  apply (DualRes_forward_on_boards (full 0) 10 5 false false None [128] [] 20
           true (full 0 [4; 10; 11; 11]) 4); try lia; reflexivity.
Defined.

(** ** More on the inference entry point *)

(** X15: on the host (neither [cuda] nor [tpu]), for a model built for 10
    planes with the default expansion and at least one class, [predict] on an
    array of 1210 entries returns, whatever the mode of the model and the
    state of the gradient switch before the call: an array of [n_classes]
    entries and an array of one entry. *)
Theorem predict_on_a_board :
  forall (fresh : Init) (n_classes : Z) (dev : option Device)
         (blocks_size ds : list Z) (d0 : Z) (mode : bool)
         (rt : Runtime) (w : World) (x : Tensor),
    0 < n_classes -> numel (shape x) = 1210 ->
    exists m pi v,
      DualRes.__init__ fresh 10 n_classes false false dev blocks_size
                       (d0 :: ds) 1 = Ok m /\
      fst (DualRes.predict rt w (DualRes.train mode m) x) = Ok (pi, v) /\
      shape pi = [n_classes] /\ shape v = [1].
Proof.
  intros fresh n_classes dev blocks_size ds d0 mode rt w x Hc Hx.
  destruct (predict_returns fresh n_classes dev blocks_size ds d0 mode rt w x
              Hc Hx) as (m & pi & v & Em & Ep & Sp & Sv & _).
  exists m, pi, v. repeat split; assumption.
Qed.

Lemma predict_on_a_board_witness :
  exists m pi v,
    DualRes.__init__ (full 0) 10 5 false false None [128] [20] 1 = Ok m /\
    fst (DualRes.predict host (mkWorld true) (DualRes.train true m)
                         (full 1 [1210])) = Ok (pi, v) /\
    shape pi = [5] /\ shape v = [1].
Proof.
  apply (predict_on_a_board (full 0) 5 None [128] [] 20 true host
           (mkWorld true) (full 1 [1210])); [lia|reflexivity].
Defined.

(** X16: an array that does not hold 1210 entries makes [predict] raise
    before the model is touched: model and gradient switch are left as they
    were (the model is not put in evaluation mode), and without device
    transfers the exception is the runtime error of the reshape. *)
Theorem predict_rejects_other_sizes :
  forall (rt : Runtime) (w : World) (m : DualRes.t) (x : Tensor),
    numel (shape x) <> 1210 ->
    exists e,
      DualRes.predict rt w m x = (Raise e, (w, m)) /\
      (DualRes.use_tpu m = false -> DualRes.use_cuda m = false ->
       e = RuntimeError).
Proof.
  intros rt w m x Hx. rewrite predict_unfold.
  assert (Hv : forall y, shape y = shape x -> view y [1; 10; 11; 11] = Raise RuntimeError).
  { intros y Hy. unfold view. rewrite Hy.
    destruct (Z.eqb_spec (numel [1; 10; 11; 11]) (numel (shape x))) as [E|_];
      [|reflexivity].
    elim Hx. rewrite <- E. reflexivity. }
  unfold DualRes.prepare, transfer.
  destruct (DualRes.use_tpu m), (DualRes.use_cuda m);
    try destruct (to_raises rt (DualRes.dev m));
    try destruct (cuda_raises rt); cbn [bind];
    try rewrite (Hv x eq_refl);
    eexists; (split; [reflexivity|]); intros; try reflexivity; discriminate.
Qed.

Lemma zero_model_built :
  DualRes.__init__ (full 0) 10 5 false false None [128] [20] 1 = Ok zero_model.
Proof. apply DualRes_init_any. Qed.

Lemma predict_rejects_other_sizes_witness :
  exists e,
    DualRes.predict host (mkWorld true) zero_model (full 0 [8; 8])
    = (Raise e, (mkWorld true, zero_model)) /\
    (DualRes.use_tpu zero_model = false ->
     DualRes.use_cuda zero_model = false -> e = RuntimeError).
Proof.
  apply (predict_rejects_other_sizes host (mkWorld true) zero_model
           (full 0 [8; 8])).
  cbn. lia.
Defined.

(** X17: what [predict] returns depends neither on the mode the model was
    in nor on the state of the gradient switch. *)
Theorem predict_ignores_mode_and_switch :
  forall (rt : Runtime) (w w' : World) (m : DualRes.t) (mode : bool)
         (x : Tensor),
    fst (DualRes.predict rt w (DualRes.train mode m) x)
    = fst (DualRes.predict rt w' m x).
Proof.
  intros rt w w' m mode x. rewrite !predict_unfold.
  change (DualRes.prepare rt (DualRes.train mode m) x)
    with (DualRes.prepare rt m x).
  unfold DualRes.eval. rewrite DualRes_train_twice.
  destruct (DualRes.prepare rt m x); reflexivity.
Qed.

(** ** The forward pass and the state of the model *)

(** X19: on a model in evaluation mode the forward pass changes nothing in
    the model, on every input and also when it raises. *)
Theorem forward_leaves_eval_model_alone :
  forall (m : DualRes.t) (x : Tensor),
    frozen m -> snd (DualRes.forward m x) = m.
Proof. exact DualRes_forward_frozen. Qed.

Lemma forward_leaves_eval_model_alone_witness :
  snd (DualRes.forward (DualRes.eval zero_model) (full 0 [3; 3]))
  = DualRes.eval zero_model.
Proof.
  apply (forward_leaves_eval_model_alone (DualRes.eval zero_model)
           (full 0 [3; 3])).
  apply eval_frozen.
Defined.

Lemma PolicyNet_forward_state (p : PolicyNet.t) (x y : Tensor) :
  Conv2d.forward (PolicyNet.conv p) x = Ok y ->
  snd (PolicyNet.forward p x)
  = PolicyNet.set_bn p (snd (BatchNorm2d.forward (PolicyNet.bn p) y)).
Proof.
  intros E. unfold PolicyNet.forward. rewrite E.
  destruct (BatchNorm2d.forward (PolicyNet.bn p) y) as [r b]. reflexivity.
Qed.

Lemma DualRes_forward_policy_state (m : DualRes.t) (x f : Tensor) :
  fst (ResNetEncoder.forward (DualRes.encoder m) x) = Ok f ->
  DualRes.policy (snd (DualRes.forward m x))
  = snd (PolicyNet.forward (DualRes.policy m) f).
Proof.
  intros E. unfold DualRes.forward.
  destruct (ResNetEncoder.forward (DualRes.encoder m) x) as [r e]. cbn in E.
  subst r.
  destruct (PolicyNet.forward (DualRes.policy m) f) as [[pi|ex] p];
    [|reflexivity].
  destruct (ValueNet.forward (DualRes.value m) f) as [rv v]. reflexivity.
Qed.

(** X20: a freshly built model is in training mode, and there the forward
    pass is not free of effects: on a batch of boards it returns and leaves a
    model different from the one it was given, the batch counter of the
    policy head's normalisation layer having gone from 0 to 1. *)
Theorem forward_in_training_mode_changes_model :
  forall (fresh : Init) (cin n_classes : Z) (cuda tpu : bool)
         (dev : option Device) (blocks_size ds : list Z) (d0 : Z)
         (x : Tensor) (n : Z),
    0 < n -> 0 < n_classes -> shape x = [n; cin; 11; 11] ->
    exists m,
      DualRes.__init__ fresh cin n_classes cuda tpu dev blocks_size
                       (d0 :: ds) 1 = Ok m /\
      DualRes.training m = true /\
      is_ok (fst (DualRes.forward m x)) = true /\
      BatchNorm2d.num_batches_tracked (PolicyNet.bn (DualRes.policy m)) = 0 /\
      BatchNorm2d.num_batches_tracked
        (PolicyNet.bn (DualRes.policy (snd (DualRes.forward m x)))) = 1 /\
      snd (DualRes.forward m x) <> m.
Proof.
  intros fresh cin n_classes cuda tpu dev blocks_size ds d0 x n Hn Hc Hx.
  destruct (DualRes_forward_returns fresh cin n_classes cuda tpu dev
              blocks_size ds d0 true x n Hn Hc Hx)
    as (m & pi & v & Em & Ef & _).
  rewrite (fresh_model_in_training _ _ _ _ _ _ _ _ _ _ Em) in Ef.
  exists m. split; [exact Em|].
  pose proof (DualRes_init_any fresh cin n_classes cuda tpu dev blocks_size
                ds d0 1) as Em'.
  rewrite Em' in Em. injection Em as Hm.
  assert (H0 : BatchNorm2d.num_batches_tracked
                 (PolicyNet.bn (DualRes.policy m)) = 0)
    by (rewrite <- Hm; reflexivity).
  assert (H1 : BatchNorm2d.num_batches_tracked
                 (PolicyNet.bn (DualRes.policy (snd (DualRes.forward m x)))) = 1).
  { destruct (encoder_forward_shape fresh cin 128 d0 [] ds true x n 11 11)
      as (enc & f & Eenc & Efe & Sf); try assumption; try lia.
    injection Eenc as <-.
    assert (Ee : fst (ResNetEncoder.forward (DualRes.encoder m) x) = Ok f).
    { rewrite <- Hm. cbn [DualRes.encoder].
      rewrite <- Efe. f_equal. f_equal.
      unfold ResNetEncoder.train, ResNetLayer.train.
      cbn [ResNetEncoder.blocks ResNetEncoder.gate ResNetEncoder.blocks_sizes
           ResNetEncoder.in_out_block_sizes map].
      rewrite ResNetLayer_blocks. cbn [map]. rewrite map_repeat.
      rewrite !fresh_block_in_training. rewrite <- ResNetLayer_blocks.
      reflexivity. }
    rewrite (DualRes_forward_policy_state m x f Ee).
    destruct (head_stem fresh 128 (BatchNorm2d.__init__ 1) f n Hn eq_refl Sf)
      as (y & z & g & Ey & _).
    assert (Sy : shape y = [n; 1; 11; 11]).
    { unfold Conv2d.forward in Ey. rewrite Sf in Ey.
      unfold Conv2d.__init__, pair_ in Ey. cbn [fst snd] in Ey.
      rewrite Conv2d_out_shape_ok in Ey by (try lia; reflexivity).
      cbn [bind] in Ey. injection Ey as <-. reflexivity. }
    rewrite <- Hm. cbn [DualRes.policy].
    rewrite (PolicyNet_forward_state (PolicyNet.__init__ fresh 128 n_classes)
               f y Ey).
    cbn [PolicyNet.set_bn PolicyNet.bn PolicyNet.__init__].
    rewrite (BatchNorm2d_forward_training_counts (BatchNorm2d.__init__ 1)
               y n 1 11 11 eq_refl Sy).
    reflexivity. }
  split; [rewrite <- Hm; reflexivity|].
  split; [rewrite Ef; reflexivity|]. split; [exact H0|]. split; [exact H1|].
  intros E. rewrite E, H0 in H1. discriminate H1.
Qed.

Lemma forward_in_training_mode_changes_model_witness :
  exists m,
    DualRes.__init__ (full 0) 10 5 false false None [128] [20] 1 = Ok m /\
    DualRes.training m = true /\
    is_ok (fst (DualRes.forward m (full 0 [1; 10; 11; 11]))) = true /\
    BatchNorm2d.num_batches_tracked (PolicyNet.bn (DualRes.policy m)) = 0 /\
    BatchNorm2d.num_batches_tracked
      (PolicyNet.bn (DualRes.policy
         (snd (DualRes.forward m (full 0 [1; 10; 11; 11]))))) = 1 /\
    snd (DualRes.forward m (full 0 [1; 10; 11; 11])) <> m.
Proof.
  apply (forward_in_training_mode_changes_model (full 0) 10 5 false false None
           [128] [] 20 (full 0 [1; 10; 11; 11]) 1); try lia; reflexivity.
Defined.

(** X21: a model built with an [expansion] other than 1 and two blocks or
    more is built without complaint, and fails at its first use: [predict]
    raises the runtime error on every array of 1210 entries. *)
Theorem predict_fails_with_other_expansion :
  forall (fresh : Init) (n_classes : Z) (dev : option Device)
         (blocks_size ds : list Z) (d0 e : Z) (mode : bool)
         (rt : Runtime) (w : World) (x : Tensor),
    2 <= d0 -> e <> 1 -> numel (shape x) = 1210 ->
    exists m,
      DualRes.__init__ fresh 10 n_classes false false dev blocks_size
                       (d0 :: ds) e = Ok m /\
      fst (DualRes.predict rt w (DualRes.train mode m) x) = Raise RuntimeError.
Proof.
  intros fresh n_classes dev blocks_size ds d0 e mode rt w x Hd He Hx.
  eexists. split; [apply DualRes_init_any|].
  rewrite predict_unfold. unfold DualRes.prepare.
  cbn [DualRes.train DualRes.use_tpu DualRes.use_cuda bind].
  assert (Ev : exists x', view x [1; 10; 11; 11] = Ok x'
                          /\ shape x' = [1; 10; 11; 11]).
  { unfold view. rewrite Hx. cbn. eexists. split; reflexivity. }
  destruct Ev as (x' & -> & Sx').
  unfold DualRes.eval. rewrite DualRes_train_twice.
  unfold DualRes.forward, DualRes.train at 1.
  cbn [DualRes.encoder DualRes.policy DualRes.value DualRes.use_cuda
       DualRes.use_tpu DualRes.dev DualRes.training].
  unfold ResNetEncoder.forward, ResNetEncoder.train.
  cbn [ResNetEncoder.gate ResNetEncoder.blocks ResNetEncoder.blocks_sizes
       ResNetEncoder.in_out_block_sizes map sequential].
  destruct (gate_forward_shape fresh 10 128 false x' 1 11 11 Sx')
    as (g & Eg & Sg); try lia.
  destruct (ConvBn.forward _ x') as [rg g']. cbn in Eg. subst rg.
  pose proof (stage_rejects_expansion fresh 128 128 d0 e false (relu g) 1 11 11
                Hd He ltac:(lia) ltac:(lia) Sg ltac:(lia) ltac:(lia)
                ltac:(discriminate)) as Hs.
  destruct (ResNetLayer.forward _ (relu g)) as [rs l']. cbn in Hs. subst rs.
  reflexivity.
Qed.

Lemma predict_fails_with_other_expansion_witness :
  exists m,
    DualRes.__init__ (full 0) 10 5 false false None [128] [20] 2 = Ok m /\
    fst (DualRes.predict host (mkWorld true) (DualRes.train true m)
                         (full 0 [10; 11; 11])) = Raise RuntimeError.
Proof.
  apply (predict_fails_with_other_expansion (full 0) 5 None [128] [] 20 2 true
           host (mkWorld true) (full 0 [10; 11; 11])); try lia. reflexivity.
Defined.
